(** * Stream decoder and session reconciler of the chat front end

    A shallow embedding of [services/api.js] (the event-stream consumers
    [fetchSSEData] and [streamChatResponse]) and of the handlers of
    [pages/Chat.jsx] ([saveRename], [executeDelete], [handleSendMessage]),
    followed by the properties proved about them.

    JavaScript strings are sequences of UTF-16 code units; they are modelled
    as lists of code units, so that [split], [startsWith], [slice], [trim]
    and [includes] operate on exactly the units the engine sees. *)

From Stdlib Require Import List Arith NArith Lia Bool String Ascii.
From Stdlib Require DecimalString DecimalN.
Import ListNotations.

(** ** JavaScript strings *)

Module JSString.

Definition jsstring : Type := list N.

(** An ASCII literal of the source as a JavaScript string. *)
Definition lit (s : string) : jsstring :=
  map N_of_ascii (list_ascii_of_string s).

(** The line feed, written ['\n'] in the source. *)
Definition LF : N := 10%N.

Fixpoint str_eqb (a b : jsstring) : bool :=
  match a, b with
  | [], [] => true
  | x :: a', y :: b' => N.eqb x y && str_eqb a' b'
  | _, _ => false
  end.

(** [s.startsWith(p)] *)
Fixpoint startsWith (s p : jsstring) {struct p} : bool :=
  match p with
  | [] => true
  | x :: p' =>
      match s with
      | [] => false
      | y :: s' => N.eqb x y && startsWith s' p'
      end
  end.

(** [s.slice(n)] for a non-negative [n]. *)
Definition slice (s : jsstring) (n : nat) : jsstring := skipn n s.

(** [s.includes(p)] *)
Fixpoint includes (s p : jsstring) {struct s} : bool :=
  startsWith s p ||
  match s with
  | [] => false
  | _ :: s' => includes s' p
  end.

(** WhiteSpace and LineTerminator code units, the ones [trim] strips:
    TAB, LF, VT, FF, CR, SP, NBSP, the Zs category, LS, PS and the BOM. *)
Definition is_white_space (c : N) : bool :=
  ((9 <=? c) && (c <=? 13) || (c =? 32) || (c =? 160) || (c =? 5760)
   || (8192 <=? c) && (c <=? 8202) || (c =? 8232) || (c =? 8233)
   || (c =? 8239) || (c =? 8287) || (c =? 12288) || (c =? 65279))%N.

Fixpoint trimStart (s : jsstring) : jsstring :=
  match s with
  | [] => []
  | c :: s' => if is_white_space c then trimStart s' else s
  end.

Definition trimEnd (s : jsstring) : jsstring := rev (trimStart (rev s)).

(** [s.trim()] *)
Definition trim (s : jsstring) : jsstring := trimEnd (trimStart s).

(** A JavaScript string used as a condition: the empty string is falsy. *)
Definition truthy (s : jsstring) : bool :=
  match s with [] => false | _ :: _ => true end.

(** The first occurrence of [sep] in [s]: the text before it and the text
    after it ([indexOf] followed by the two [substring]s of [split]). *)
Fixpoint cut (sep s : jsstring) {struct s} : option (jsstring * jsstring) :=
  if startsWith s sep then Some ([], skipn (List.length sep) s)
  else
    match s with
    | [] => None
    | c :: s' =>
        match cut sep s' with
        | Some (before, after) => Some (c :: before, after)
        | None => None
        end
    end.

(** The loop of [split]: cut at the next occurrence, continue after it. Each
    round consumes at least one code unit when [sep] is not empty, so
    [length s] rounds are enough. *)
Fixpoint split_from (fuel : nat) (sep s : jsstring) : list jsstring :=
  match fuel with
  | O => [s]
  | S fuel' =>
      match cut sep s with
      | None => [s]
      | Some (before, after) => before :: split_from fuel' sep after
      end
  end.

(** [s.split(sep)]; an empty separator splits into single code units. *)
Definition split (s sep : jsstring) : list jsstring :=
  match sep with
  | [] => map (fun c => [c]) s
  | _ :: _ => split_from (List.length s) sep s
  end.

(** [Array.prototype.pop]: the last element and the array without it. *)
Definition pop (parts : list jsstring) : jsstring * list jsstring :=
  (last parts [], removelast parts).

(** [Array.prototype.join] *)
Fixpoint join (sep : jsstring) (parts : list jsstring) : jsstring :=
  match parts with
  | [] => []
  | [p] => p
  | p :: rest => p ++ sep ++ join sep rest
  end.

(** [n.toString()] of a non-negative integer below 2^53. *)
Definition Number_toString (n : N) : jsstring :=
  lit (DecimalString.NilEmpty.string_of_uint (N.to_uint n)).

End JSString.
Import JSString.

(** ** JSON values, [JSON.parse] and [JSON.stringify] of a string

    [JSON.parse] and [JSON.stringify] are the engine's; they are modelled
    after the JSON grammar of ECMA-404 as ECMA-262 applies it. A number keeps
    its literal (its double is a function of it); an object keeps its members
    in source order, the last binding of a key being the one a property read
    sees. *)

Module JSON.

#[local] Set Warnings "-register-all".

Inductive json : Type :=
| JNull
| JBool (b : bool)
| JNumber (literal : jsstring)
| JString (s : jsstring)
| JArray (items : list json)
| JObject (members : list (jsstring * json)).

Definition is_json_ws (c : N) : bool :=
  ((c =? 32) || (c =? 9) || (c =? 10) || (c =? 13))%N.

Fixpoint skip_ws (s : jsstring) : jsstring :=
  match s with
  | [] => []
  | c :: s' => if is_json_ws c then skip_ws s' else s
  end.

Definition is_digit (c : N) : bool := ((48 <=? c) && (c <=? 57))%N.

Definition hex_value (c : N) : option N :=
  if is_digit c then Some (c - 48)%N
  else if ((65 <=? c) && (c <=? 70))%N then Some (c - 55)%N
  else if ((97 <=? c) && (c <=? 102))%N then Some (c - 87)%N
  else None.

(** The code unit an escape letter stands for: quote, backslash, slash,
    b, f, n, r, t. *)
Definition escape_char (e : N) : option N :=
  if (e =? 34)%N then Some 34%N
  else if (e =? 92)%N then Some 92%N
  else if (e =? 47)%N then Some 47%N
  else if (e =? 98)%N then Some 8%N
  else if (e =? 102)%N then Some 12%N
  else if (e =? 110)%N then Some 10%N
  else if (e =? 114)%N then Some 13%N
  else if (e =? 116)%N then Some 9%N
  else None.

Definition cons_fst {A B : Type} (a : A) (r : option (list A * B))
  : option (list A * B) :=
  match r with
  | Some (l, rest) => Some (a :: l, rest)
  | None => None
  end.

(** A string after its opening quote: the decoded units and the rest. *)
Fixpoint parse_string_body (s : jsstring) : option (jsstring * jsstring) :=
  match s with
  | [] => None
  | c :: r =>
      if (c =? 34)%N then Some ([], r)
      else if (c =? 92)%N then
        match r with
        | [] => None
        | e :: r1 =>
            if (e =? 117)%N then
              match r1 with
              | h1 :: h2 :: h3 :: h4 :: r2 =>
                  match hex_value h1, hex_value h2,
                        hex_value h3, hex_value h4 with
                  | Some a, Some b, Some c', Some d =>
                      cons_fst (((a * 16 + b) * 16 + c') * 16 + d)%N
                               (parse_string_body r2)
                  | _, _, _, _ => None
                  end
              | _ => None
              end
            else
              match escape_char e with
              | Some x => cons_fst x (parse_string_body r1)
              | None => None
              end
        end
      else if (c <? 32)%N then None
      else cons_fst c (parse_string_body r)
  end.

Fixpoint take_digits (s : jsstring) : jsstring * jsstring :=
  match s with
  | [] => ([], [])
  | c :: s' =>
      if is_digit c then let (d, rest) := take_digits s' in (c :: d, rest)
      else ([], s)
  end.

(** An optional minus, then [0] or a non-zero digit followed by digits:
    the literal read and the rest. *)
Definition parse_int (s : jsstring) : option (jsstring * jsstring) :=
  let (sign, s1) :=
    match s with
    | c :: r => if (c =? 45)%N then ([c], r) else ([], s)
    | [] => ([], s)
    end in
  match s1 with
  | [] => None
  | c :: r =>
      if (c =? 48)%N then Some (sign ++ [c], r)
      else if is_digit c then
        let (d, rest) := take_digits r in Some (sign ++ c :: d, rest)
      else None
  end.

(** An optional fraction: a dot and at least one digit. *)
Definition parse_frac (s : jsstring) : option (jsstring * jsstring) :=
  match s with
  | c :: r =>
      if (c =? 46)%N then
        match take_digits r with
        | ([], _) => None
        | (d, rest) => Some (c :: d, rest)
        end
      else Some ([], s)
  | [] => Some ([], s)
  end.

(** An optional exponent: [e] or [E], an optional sign, at least one digit. *)
Definition parse_exp (s : jsstring) : option (jsstring * jsstring) :=
  match s with
  | c :: r =>
      if ((c =? 101) || (c =? 69))%N then
        let (sign, r1) :=
          match r with
          | g :: r' => if ((g =? 43) || (g =? 45))%N then ([g], r') else ([], r)
          | [] => ([], r)
          end in
        match take_digits r1 with
        | ([], _) => None
        | (d, rest) => Some (c :: sign ++ d, rest)
        end
      else Some ([], s)
  | [] => Some ([], s)
  end.

Definition parse_number (s : jsstring) : option (jsstring * jsstring) :=
  match parse_int s with
  | None => None
  | Some (i, s1) =>
      match parse_frac s1 with
      | None => None
      | Some (f, s2) =>
          match parse_exp s2 with
          | None => None
          | Some (e, s3) => Some (i ++ f ++ e, s3)
          end
      end
  end.

Section Containers.

Variable parse_value : jsstring -> option (json * jsstring).

(** The elements of a non-empty array, up to and including its [\]]. *)
Fixpoint parse_elements (fuel : nat) (s : jsstring)
  : option (list json * jsstring) :=
  match fuel with
  | O => None
  | S fuel' =>
      match parse_value s with
      | None => None
      | Some (v, r) =>
          match skip_ws r with
          | [] => None
          | c :: r' =>
              if (c =? 44)%N then cons_fst v (parse_elements fuel' r')
              else if (c =? 93)%N then Some ([v], r')
              else None
          end
      end
  end.

(** The members of a non-empty object, up to and including its [}]. *)
Fixpoint parse_members (fuel : nat) (s : jsstring)
  : option (list (jsstring * json) * jsstring) :=
  match fuel with
  | O => None
  | S fuel' =>
      match skip_ws s with
      | [] => None
      | q :: r0 =>
          if (q =? 34)%N then
            match parse_string_body r0 with
            | None => None
            | Some (key, r1) =>
                match skip_ws r1 with
                | [] => None
                | c :: r2 =>
                    if (c =? 58)%N then
                      match parse_value r2 with
                      | None => None
                      | Some (v, r3) =>
                          match skip_ws r3 with
                          | [] => None
                          | d :: r4 =>
                              if (d =? 44)%N then
                                cons_fst (key, v) (parse_members fuel' r4)
                              else if (d =? 125)%N then Some ([(key, v)], r4)
                              else None
                          end
                      end
                    else None
                end
            end
          else None
      end
  end.

End Containers.

Definition map_fst {A B C : Type} (f : A -> B) (r : option (A * C))
  : option (B * C) :=
  match r with
  | Some (a, rest) => Some (f a, rest)
  | None => None
  end.

(** One JSON value after optional white space; [depth] bounds the nesting of
    arrays and objects, each level of which consumes a bracket. *)
Fixpoint parse_value (depth : nat) (s : jsstring) : option (json * jsstring) :=
  match depth with
  | O => None
  | S depth' =>
      match skip_ws s with
      | [] => None
      | c :: r =>
          if (c =? 91)%N then
            match skip_ws r with
            | [] => None
            | c2 :: r2 =>
                if (c2 =? 93)%N then Some (JArray [], r2)
                else
                  map_fst JArray
                    (parse_elements (parse_value depth') (S (List.length r)) r)
            end
          else if (c =? 123)%N then
            match skip_ws r with
            | [] => None
            | c2 :: r2 =>
                if (c2 =? 125)%N then Some (JObject [], r2)
                else
                  map_fst JObject
                    (parse_members (parse_value depth') (S (List.length r)) r)
            end
          else if (c =? 34)%N then map_fst JString (parse_string_body r)
          else if (c =? 45)%N || is_digit c then
            map_fst JNumber (parse_number (c :: r))
          else if startsWith (c :: r) (lit "null") then
            Some (JNull, skipn 4 (c :: r))
          else if startsWith (c :: r) (lit "true") then
            Some (JBool true, skipn 4 (c :: r))
          else if startsWith (c :: r) (lit "false") then
            Some (JBool false, skipn 5 (c :: r))
          else None
      end
  end.

(** [JSON.parse(text)]; [None] stands for the [SyntaxError] it throws. *)
Definition JSON_parse (text : jsstring) : option json :=
  match parse_value (S (List.length text)) text with
  | Some (v, rest) =>
      match skip_ws rest with
      | [] => Some v
      | _ :: _ => None
      end
  | None => None
  end.

(** The last binding of [key] among the members of an object. *)
Fixpoint lookup (key : jsstring) (members : list (jsstring * json))
  : option json :=
  match members with
  | [] => None
  | (k, v) :: rest =>
      match lookup key rest with
      | Some v' => Some v'
      | None => if str_eqb k key then Some v else None
      end
  end.

(** [metadata.data] on a parsed value: the outer [None] is the [TypeError]
    of a property read on [null], the inner [None] is [undefined]. *)
Definition property_data (metadata : json) : option (option json) :=
  match metadata with
  | JNull => None
  | JObject members => Some (lookup (lit "data") members)
  | _ => Some None
  end.

Definition hex_digit (n : N) : N :=
  if (n <? 10)%N then (48 + n)%N else (87 + n)%N.

Definition unicode_escape (c : N) : jsstring :=
  [92; 117; hex_digit ((c / 4096) mod 16); hex_digit ((c / 256) mod 16);
   hex_digit ((c / 16) mod 16); hex_digit (c mod 16)]%N.

Definition is_lead (c : N) : bool := ((55296 <=? c) && (c <=? 56319))%N.
Definition is_trail (c : N) : bool := ((56320 <=? c) && (c <=? 57343))%N.

Definition quote_unit (c : N) : jsstring :=
  if (c =? 8)%N then [92; 98]%N
  else if (c =? 9)%N then [92; 116]%N
  else if (c =? 10)%N then [92; 110]%N
  else if (c =? 12)%N then [92; 102]%N
  else if (c =? 13)%N then [92; 114]%N
  else if (c =? 34)%N then [92; 34]%N
  else if (c =? 92)%N then [92; 92]%N
  else if (c <? 32)%N || is_lead c || is_trail c then unicode_escape c
  else [c].

(** QuoteJSONString without its quotes: a surrogate pair is kept, a lone
    surrogate is escaped. *)
Fixpoint quote_units (s : jsstring) : jsstring :=
  match s with
  | [] => []
  | c :: r =>
      if is_lead c then
        match r with
        | d :: r' =>
            if is_trail d then c :: d :: quote_units r'
            else quote_unit c ++ quote_units r
        | [] => quote_unit c
        end
      else quote_unit c ++ quote_units r
  end.

(** [JSON.stringify(s)] of a string [s]. *)
Definition JSON_stringify (s : jsstring) : jsstring :=
  (34%N :: quote_units s) ++ [34%N].

End JSON.
Import JSON.

(** ** The stream decoder ([services/api.js]) *)

Module Decoder.

(** What the backend's answer to [POST /query] looks like to the client: the
    request fails before a response, the response is not [ok], or its body
    is read as a sequence of text chunks (each the result of
    [decoder.decode(value, {stream: true})]) until the reader reports [done]
    or a read fails. *)
Inductive stream_end : Type := Done | ReadFailed.

Inductive response : Type :=
| FetchFailed
| NotOk (status : N) (body : jsstring)
| Body (chunks : list jsstring) (ending : stream_end).

(** The second argument of [onChunk]: ['text'], ['visualization'], or
    absent. *)
Inductive chunk_type : Type := TextChunk | VisualizationChunk | NoType.

(** One invocation [onChunk(payload, type)] of the consumer callback. *)
Record callback : Type := OnChunk { payload : json; type : chunk_type }.

(** One round of the loop over the lines of an event block: the event type
    and the data read so far. *)
Definition read_line (acc : option jsstring * jsstring) (line : jsstring)
  : option jsstring * jsstring :=
  let (eventType, data) := acc in
  if startsWith line (lit "event: ") then
    (Some (trim (slice line 7)), data)
  else if startsWith line (lit "data: ") then
    (eventType, data ++ ((if truthy data then [LF] else []) ++ slice line 6))
  else acc.

Definition read_lines (lines : list jsstring) : option jsstring * jsstring :=
  fold_left read_line lines (None, []).

(** [eventType === name], where [eventType] starts as [null]. *)
Definition type_is (eventType : option jsstring) (name : string) : bool :=
  match eventType with
  | Some t => str_eqb t (lit name)
  | None => false
  end.

(** The inline marker of an [error] event: a line feed, then
    [[Error: <JSON.stringify(data)>]]. *)
Definition error_marker (data : jsstring) : jsstring :=
  LF :: lit "[Error: " ++ JSON_stringify data ++ lit "]".

(** The classification of a block by its type and data: the callbacks it
    makes. A visualization whose data does not parse is logged and
    dropped. *)
Definition dispatch (eventType : option jsstring) (data : jsstring)
  : list callback :=
  if type_is eventType "chunk" && truthy data then
    match JSON_parse data with
    | Some text => [OnChunk text TextChunk]
    | None => [OnChunk (JString data) TextChunk]
    end
  else if type_is eventType "visualization" && truthy data then
    match JSON_parse data with
    | Some viz => [OnChunk viz VisualizationChunk]
    | None => []
    end
  else if type_is eventType "error" then
    [OnChunk (JString (error_marker data)) TextChunk]
  else [].

(** The body of [for (const part of parts)] in [streamChatResponse]. *)
Definition process_part (part : jsstring) : list callback :=
  if negb (truthy (trim part)) then []
  else
    let (eventType, data) := read_lines (split part [LF]) in
    dispatch eventType data.

(** The [while (true)] loop of [streamChatResponse] from the given buffer:
    the callbacks made, in order, until the reader is done. *)
Fixpoint read_loop (buffer : jsstring) (chunks : list jsstring)
  : list callback :=
  match chunks with
  | [] => []
  | value :: rest =>
      let buffer := buffer ++ value in
      let (buffer', parts) := pop (split buffer [LF; LF]) in
      flat_map process_part parts ++ read_loop buffer' rest
  end.

Inductive completion : Type := Returned | Thrown.

Definition connection_error : callback :=
  OnChunk (JString (LF :: lit "[Connection Error]")) NoType.

(** [streamChatResponse(query, sessionId, onChunk)] on a given response: the
    invocations of [onChunk] in order, and whether the promise resolves or
    rejects. *)
Definition streamChatResponse (r : response) : list callback * completion :=
  match r with
  | Body chunks Done => (read_loop [] chunks, Returned)
  | Body chunks ReadFailed =>
      (read_loop [] chunks ++ [connection_error], Thrown)
  | FetchFailed | NotOk _ _ => ([connection_error], Thrown)
  end.

(** What [fetchSSEData] does with one event block. *)
Inductive block_outcome : Type :=
| NotMetadata
| NoDataLine
| ParseFailed
| Found (data : option json).

(** The body of [for (const eventStr of events)] in [fetchSSEData]. The
    [try] covers both [JSON.parse] and the read of [metadata.data]. *)
Definition process_block (eventStr : jsstring) : block_outcome :=
  if includes eventStr (lit "event: metadata") then
    match find (fun l => startsWith l (lit "data: ")) (split eventStr [LF]) with
    | Some dataLine =>
        let jsonStr := slice dataLine 6 in
        match JSON_parse jsonStr with
        | Some metadata =>
            match property_data metadata with
            | Some data => Found data
            | None => ParseFailed
            end
        | None => ParseFailed
        end
    | None => NoDataLine
    end
  else NotMetadata.

(** The [for] loop over the complete events of one read: the value returned
    from inside it, if any. *)
Fixpoint scan_events (events : list jsstring) : option (option json) :=
  match events with
  | [] => None
  | eventStr :: rest =>
      match process_block eventStr with
      | Found data => Some data
      | _ => scan_events rest
      end
  end.

(** The [while (true)] loop of [fetchSSEData]. *)
Fixpoint query_loop (buffer : jsstring) (chunks : list jsstring)
  : option (option json) :=
  match chunks with
  | [] => None
  | value :: rest =>
      let buffer := buffer ++ value in
      let (buffer', events) := pop (split buffer [LF; LF]) in
      match scan_events events with
      | Some data => Some data
      | None => query_loop buffer' rest
      end
  end.

(** The promise of [fetchSSEData]: resolved with a value ([None] is
    [undefined]) or rejected. *)
Inductive query_result : Type :=
| Resolved (value : option json)
| Rejected.

Definition fetchSSEData (r : response) : query_result :=
  match r with
  | Body chunks ending =>
      match query_loop [] chunks with
      | Some data => Resolved data
      | None =>
          match ending with
          | Done => Resolved (Some (JArray []))
          | ReadFailed => Rejected
          end
      end
  | FetchFailed | NotOk _ _ => Rejected
  end.

End Decoder.
Import Decoder.

(** ** The chat page ([pages/Chat.jsx]) *)

Module Chat.

(** Session and message identifiers are strings: UUIDs issued by the store,
    or the temporary identifiers the page derives from the clock. *)
Definition ident : Type := jsstring.

Record session : Type := Session {
  session_id : ident;
  title : option jsstring;
  session_created_at : jsstring
}.

Inductive role : Type := user_role | assistant_role.

Record message : Type := Message {
  id : ident;
  msg_role : role;
  content : jsstring;
  created_at : option jsstring;
  meta : option json
}.

(** The component state the handlers read and write. *)
Record state : Type := State {
  sessions : list session;
  currentSessionId : option ident;
  messages : list message;
  inputValue : jsstring;
  isLoading : bool;
  user : option ident;
  activeMenuId : option ident;
  editingSessionId : option ident;
  editTitle : jsstring;
  deletingSessionId : option ident
}.

(** What a handler asks of the outside world. *)
Inductive effect : Type :=
| InsertSession (user_id : option ident) (new_title : jsstring)
| PostQuery (query : jsstring) (sid : option ident)
| PatchSession (sid : option ident) (new_title : jsstring)
| DeleteSession (sid : option ident)
| FetchSessions
| FocusInput
| Alert (text : jsstring).

(** An identifier used as a condition, as in [if (!sessionId)]: [null] and
    the empty string are falsy. *)
Definition truthy_id (i : option ident) : bool :=
  match i with
  | Some s => truthy s
  | None => false
  end.

(** [a === b] on values that are [null] or a string. *)
Definition id_eqb (a b : option ident) : bool :=
  match a, b with
  | Some x, Some y => str_eqb x y
  | None, None => true
  | _, _ => false
  end.

(** *** Handlers as state transformers that record their effects

    A handler is the sequence of its own state updates and requests, each
    [await] answered by what the outside world supplies. The effect hooks of
    the component (the reload of [messages] when [currentSessionId] changes,
    the scrolling, the resizing of the input) run after a render and are not
    part of a handler; what is written to the console is left out. The
    reload that a send starts when it creates its session is added to the
    handler in [PageSend] below. *)

Definition M (A : Type) : Type := state -> A * state * list effect.

Definition ret {A : Type} (a : A) : M A := fun st => (a, st, []).

Definition bind {A B : Type} (m : M A) (k : A -> M B) : M B :=
  fun st =>
    let '(a, st1, e1) := m st in
    let '(b, st2, e2) := k a st1 in
    (b, st2, e1 ++ e2).

Definition emit (e : effect) : M unit := fun st => (tt, st, [e]).

Definition update (f : state -> state) : M unit := fun st => (tt, f st, []).

Declare Scope handler_scope.
Delimit Scope handler_scope with handler.
Notation "x <- m ;; k" := (bind m (fun x => k))
  (at level 61, m at next level, right associativity) : handler_scope.
Notation "m ;; k" := (bind m (fun _ => k))
  (at level 61, right associativity) : handler_scope.
Local Open Scope handler_scope.

Definition when (c : bool) (m : M unit) : M unit := if c then m else ret tt.

Fixpoint forEach {A : Type} (l : list A) (body : A -> M unit) : M unit :=
  match l with
  | [] => ret tt
  | a :: l' => body a ;; forEach l' body
  end.

(** The setters of [useState], taking the updater function. *)
Definition setSessions (f : list session -> list session) : M unit :=
  update (fun st =>
    State (f (sessions st)) (currentSessionId st) (messages st) (inputValue st)
          (isLoading st) (user st) (activeMenuId st) (editingSessionId st)
          (editTitle st) (deletingSessionId st)).

Definition setCurrentSessionId (v : option ident) : M unit :=
  update (fun st =>
    State (sessions st) v (messages st) (inputValue st)
          (isLoading st) (user st) (activeMenuId st) (editingSessionId st)
          (editTitle st) (deletingSessionId st)).

Definition setMessages (f : list message -> list message) : M unit :=
  update (fun st =>
    State (sessions st) (currentSessionId st) (f (messages st)) (inputValue st)
          (isLoading st) (user st) (activeMenuId st) (editingSessionId st)
          (editTitle st) (deletingSessionId st)).

Definition setInputValue (v : jsstring) : M unit :=
  update (fun st =>
    State (sessions st) (currentSessionId st) (messages st) v
          (isLoading st) (user st) (activeMenuId st) (editingSessionId st)
          (editTitle st) (deletingSessionId st)).

Definition setIsLoading (v : bool) : M unit :=
  update (fun st =>
    State (sessions st) (currentSessionId st) (messages st) (inputValue st)
          v (user st) (activeMenuId st) (editingSessionId st)
          (editTitle st) (deletingSessionId st)).

Definition setEditingSessionId (v : option ident) : M unit :=
  update (fun st =>
    State (sessions st) (currentSessionId st) (messages st) (inputValue st)
          (isLoading st) (user st) (activeMenuId st) v
          (editTitle st) (deletingSessionId st)).

Definition setDeletingSessionId (v : option ident) : M unit :=
  update (fun st =>
    State (sessions st) (currentSessionId st) (messages st) (inputValue st)
          (isLoading st) (user st) (activeMenuId st) (editingSessionId st)
          (editTitle st) v).

(** A handler closes over the state of the render it was created in and is
    run on that state. *)
Definition run {A : Type} (handler : state -> M A) (st : state)
  : A * state * list effect :=
  handler st st.

(** The three components of what a handler produced. *)
Definition result_of {A : Type} (r : A * state * list effect) : A :=
  fst (fst r).

Definition state_of {A : Type} (r : A * state * list effect) : state :=
  snd (fst r).

Definition effects_of {A : Type} (r : A * state * list effect) : list effect :=
  snd r.

Definition handleNewChat : M unit :=
  setCurrentSessionId None ;;
  setMessages (fun _ => []) ;;
  setInputValue [] ;;
  emit FocusInput.

(** *** Rename *)

(** [{ ...s, title: editTitle }] *)
Definition with_title (s : session) (t : jsstring) : session :=
  Session (session_id s) (Some t) (session_created_at s).

(** [sessions.find(s => s.id === editingSessionId)] *)
Definition editing_session (render : state) : option session :=
  find (fun s => id_eqb (Some (session_id s)) (editingSessionId render))
       (sessions render).

(** [editTitle === sessions.find(s => s.id === editingSessionId)?.title] *)
Definition title_unchanged (render : state) : bool :=
  match editing_session render with
  | Some s =>
      match title s with
      | Some t => str_eqb (editTitle render) t
      | None => false
      end
  | None => false
  end.

(** [saveRename], given how the remote [renameSession] completes. *)
Definition saveRename (renamed : completion) (render : state) : M unit :=
  if negb (truthy (trim (editTitle render))) || title_unchanged render then
    setEditingSessionId None
  else
    let sessionId := editingSessionId render in
    let oldSessions := sessions render in
    setSessions (map (fun s =>
      if id_eqb (Some (session_id s)) sessionId
      then with_title s (editTitle render) else s)) ;;
    setEditingSessionId None ;;
    emit (PatchSession sessionId (editTitle render)) ;;
    match renamed with
    | Returned => ret tt
    | Thrown => setSessions (fun _ => oldSessions)
    end.

(** *** Delete *)

(** [executeDelete], given how the remote [deleteSession] completes. The
    refresh after a failure is started and not awaited. *)
Definition executeDelete (deleted : completion) (render : state) : M unit :=
  if negb (truthy_id (deletingSessionId render)) then ret tt
  else
    let sessionId := deletingSessionId render in
    setDeletingSessionId None ;;
    setSessions
      (filter (fun s => negb (id_eqb (Some (session_id s)) sessionId))) ;;
    when (id_eqb (currentSessionId render) sessionId) handleNewChat ;;
    emit (DeleteSession sessionId) ;;
    match deleted with
    | Returned => ret tt
    | Thrown =>
        emit FetchSessions ;; emit (Alert (lit "Failed to delete chat."))
    end.

(** *** Send *)

(** The answer of the store to the insertion of a session. *)
Inductive insert_result : Type :=
| Inserted (newSession : session)
| InsertError.

(** What the outside world supplies to one send: the clock readings, the
    store's answer to the insertion (consulted only when a session must be
    created) and the backend's response to the query. *)
Record send_env : Type := SendEnv {
  now_user : N;
  iso_user : jsstring;
  inserted : insert_result;
  now_assistant : N;
  iso_assistant : jsstring;
  chat_response : response;
  now_error : N
}.

(** How a call of [handleSendMessage] ends: returned at its guard, or
    settled with the [try] block completed or thrown out of. *)
Inductive send_outcome : Type :=
| Ignored
| Settled (c : completion).

Section Reconciler.

(** [ToString] of a JSON value that is not a string (a number is a double,
    arrays and objects go through [ToPrimitive]): the engine's. *)
Variable ToString : json -> jsstring.

(** [s + v] for a string [s]. *)
Definition string_plus (s : jsstring) (v : json) : jsstring :=
  match v with
  | JString t => s ++ t
  | _ => s ++ ToString v
  end.

(** The updater the callback of [handleSendMessage] passes to
    [setMessages]. *)
Definition apply_chunk (assistantMessageId : ident) (c : callback)
  (msg : message) : message :=
  if negb (str_eqb (id msg) assistantMessageId) then msg
  else
    match type c with
    | VisualizationChunk =>
        Message (id msg) (msg_role msg) (content msg) (created_at msg)
                (Some (JObject [(lit "visualization", payload c)]))
    | _ =>
        Message (id msg) (msg_role msg) (string_plus (content msg) (payload c))
                (created_at msg) (meta msg)
    end.

Definition onChunk (assistantMessageId : ident) (c : callback) : M unit :=
  setMessages (map (apply_chunk assistantMessageId c)).

(** The [try] block of [handleSendMessage]. *)
Definition send_body (env : send_env) (render : state) (queryText : jsstring)
  : M completion :=
  created <-
    (if negb (truthy_id (currentSessionId render)) then
       emit (InsertSession (user render) (lit "New Chat")) ;;
       match inserted env with
       | InsertError => ret None
       | Inserted newSession =>
           let sessionId := Some (session_id newSession) in
           setCurrentSessionId sessionId ;;
           setSessions (fun prev => newSession :: prev) ;;
           ret (Some sessionId)
       end
     else ret (Some (currentSessionId render))) ;;
  match created with
  | None => ret Thrown
  | Some sessionId =>
      let assistantMessageId := Number_toString (now_assistant env + 1) in
      setMessages (fun prev =>
        prev ++ [Message assistantMessageId assistant_role []
                         (Some (iso_assistant env)) None]) ;;
      emit (PostQuery queryText sessionId) ;;
      let (chunks, c) := streamChatResponse (chat_response env) in
      forEach chunks (onChunk assistantMessageId) ;;
      ret c
  end.

Definition handleSendMessage (env : send_env) (render : state)
  : M send_outcome :=
  if negb (truthy (trim (inputValue render))) || isLoading render then
    ret Ignored
  else
    let queryText := inputValue render in
    let tempUserMsgId := Number_toString (now_user env) in
    let userMessage :=
      Message tempUserMsgId user_role queryText (Some (iso_user env)) None in
    setMessages (fun prev => prev ++ [userMessage]) ;;
    setInputValue [] ;;
    setIsLoading true ;;
    c <- send_body env render queryText ;;
    match c with
    | Returned => ret tt
    | Thrown =>
        setMessages (fun prev =>
          prev ++ [Message (lit "error-" ++ Number_toString (now_error env))
                           assistant_role
                           (lit "Error: Unable to process request.")
                           None None])
    end ;;
    setIsLoading false ;;
    when (truthy_id (currentSessionId render)) (emit FetchSessions) ;;
    ret (Settled c).

End Reconciler.

End Chat.
Import Chat.

(** ** Notions used in the statements *)

Module Notions.

(** The complete event blocks of a text: the parts [split] finds, less the
    trailing one, which the decoders keep in their buffer. *)
Definition complete_blocks (text : jsstring) : list jsstring :=
  removelast (split text [LF; LF]).

(** The contents of the lines of a block that begin with [data: ], in
    order. *)
Definition data_contents (lines : list jsstring) : list jsstring :=
  map (fun line => slice line 6)
      (filter (fun line => startsWith line (lit "data: ")) lines).

(** A list of contents without its leading empty ones. *)
Fixpoint drop_empty (contents : list jsstring) : list jsstring :=
  match contents with
  | [] :: rest => drop_empty rest
  | _ => contents
  end.

(** An event block from its lines, and a stream text from its blocks, each
    block followed by the blank line that completes it. *)
Definition block (lines : list string) : jsstring :=
  join [LF] (map lit lines).

Definition wire (blocks : list jsstring) : jsstring :=
  flat_map (fun b => b ++ [LF; LF]) blocks.

(** A JSON string literal: the text between double quotes. *)
Definition quoted (s : string) : jsstring := (34%N :: lit s) ++ [34%N].

(** A stream of three [chunk] events carrying [A], [B] and [C], and two
    ways the network may deliver it. *)
Definition abc_text : jsstring :=
  wire [block ["event: chunk"; "data: A"]%string;
        block ["event: chunk"; "data: B"]%string;
        block ["event: chunk"; "data: C"]%string].

Definition abc_one_read : list jsstring := [abc_text].

Definition abc_four_reads : list jsstring :=
  [firstn 9 abc_text; firstn 12 (skipn 9 abc_text); [];
   skipn 21 abc_text].

Section ReconcilerNotions.

Variable ToString : json -> jsstring.

(** What a sequence of callbacks does to one message of the list. *)
Definition apply_chunks (assistantMessageId : ident) (cbs : list callback)
  (msg : message) : message :=
  fold_left (fun m c => apply_chunk ToString assistantMessageId c m) cbs msg.

(** The text a callback adds to the content: none for a visualization,
    the payload as a string otherwise. *)
Definition chunk_text (c : callback) : jsstring :=
  match type c with
  | VisualizationChunk => []
  | _ => string_plus ToString [] (payload c)
  end.

(** The texts of a sequence of callbacks, concatenated in order. *)
Definition delivered_text (cbs : list callback) : jsstring :=
  List.concat (map chunk_text cbs).

(** The messages a send works with: the one carrying the input, the
    placeholder of the answer, and the report of a failure. *)
Definition user_message (env : send_env) (render : state) : message :=
  Message (Number_toString (now_user env)) user_role (inputValue render)
          (Some (iso_user env)) None.

Definition assistant_id (env : send_env) : ident :=
  Number_toString (now_assistant env + 1).

Definition placeholder (env : send_env) : message :=
  Message (assistant_id env) assistant_role [] (Some (iso_assistant env)) None.

Definition failure_message (env : send_env) : message :=
  Message (lit "error-" ++ Number_toString (now_error env)) assistant_role
          (lit "Error: Unable to process request.") None None.

(** The message list after a send that reached the stream: the callbacks
    applied to the list extended by the two new messages, followed by the
    failure report if the stream threw. *)
Definition settled_messages (env : send_env) (render : state)
  (cbs : list callback) (c : completion) : list message :=
  map (apply_chunks (assistant_id env) cbs)
      ((messages render ++ [user_message env render]) ++ [placeholder env])
  ++ match c with
     | Returned => []
     | Thrown => [failure_message env]
     end.

End ReconcilerNotions.

End Notions.
Import Notions.

(** ** Sample pages and environments for the concrete runs *)

Module Samples.

(** A stand-in for the engine's conversion of a value that is not a string;
    no run below converts one. *)
Definition ToString_sample (v : json) : jsstring := lit "[object Object]".

Definition old_session : session :=
  Session (lit "6f1c2d3e") (Some (lit "Floats near Goa"))
          (lit "2025-01-01T00:00:00Z").

Definition new_session : session :=
  Session (lit "9a2e4b6c") (Some (lit "New Chat"))
          (lit "2025-01-02T00:00:00Z").

Definition old_message : message :=
  Message (lit "0b7d") user_role (lit "show floats")
          (Some (lit "2025-01-01T00:00:01Z")) None.

(** A page with one session listed, none active, and a question typed. *)
Definition fresh_page : state :=
  State [old_session] None [] (lit "hello") false (Some (lit "u-1"))
        None None [] None.

(** The same page with the listed session active and its message loaded. *)
Definition active_page : state :=
  State [old_session] (Some (lit "6f1c2d3e")) [old_message] (lit "hello")
        false (Some (lit "u-1")) None None [] None.

(** The page while the listed session is being renamed to [t]. *)
Definition renaming_page (t : string) : state :=
  State [old_session] (Some (lit "6f1c2d3e")) [old_message] []
        false (Some (lit "u-1")) None (Some (lit "6f1c2d3e")) (lit t) None.

(** The page once the deletion of the active session has been asked for. *)
Definition deleting_page : state :=
  State [new_session; old_session] (Some (lit "6f1c2d3e")) [old_message] []
        false (Some (lit "u-1")) None None [] (Some (lit "6f1c2d3e")).

(** The world of a send whose query is answered by the given reads. *)
Definition answering (reads : list jsstring) : send_env :=
  SendEnv 1700000000000 (lit "2025-01-02T00:00:00.000Z") (Inserted new_session)
          1700000000004 (lit "2025-01-02T00:00:00.004Z") (Body reads Done)
          1700000000009.

(** The world of a send whose query gets no response. *)
Definition unanswered : send_env :=
  SendEnv 1700000000000 (lit "2025-01-02T00:00:00.000Z") (Inserted new_session)
          1700000000004 (lit "2025-01-02T00:00:00.004Z") FetchFailed
          1700000000009.

End Samples.
Import Samples.

(** ** The rest of [services/api.js] *)

Module Api.

(** How a promise settles. *)
Inductive promise (A : Type) : Type :=
| Fulfilled (value : A)
| Failed.

Arguments Fulfilled {A} value.
Arguments Failed {A}.

(** What a caller that only awaits a promise sees of it. *)
Definition settled {A : Type} (p : promise A) : completion :=
  match p with
  | Fulfilled _ => Returned
  | Failed => Thrown
  end.

(** [getAuthHeaders], given the access token of the current session, if
    any: the headers as name and value pairs. *)
Definition getAuthHeaders (token : option jsstring)
  : list (jsstring * jsstring) :=
  (lit "Content-Type", lit "application/json") ::
  match token with
  | Some t =>
      if truthy t then [(lit "Authorization", lit "Bearer " ++ t)] else []
  | None => []
  end.

(** The common body of [renameSession] and [deleteSession]: a response
    that is not [ok] throws, otherwise the result is [await
    response.json()], which rejects when the body cannot be read to its end
    or is not JSON. *)
Definition json_reply (r : response) : promise json :=
  match r with
  | Body chunks Done =>
      match JSON_parse (List.concat chunks) with
      | Some v => Fulfilled v
      | None => Failed
      end
  | Body _ ReadFailed | FetchFailed | NotOk _ _ => Failed
  end.

Definition renameSession (r : response) : promise json := json_reply r.

Definition deleteSession (r : response) : promise json := json_reply r.

(** [v.key] for a key that no prototype defines: the outer [None] is the
    [TypeError] of a read on [null], the inner [None] is [undefined]. *)
Definition property (key : string) (v : json) : option (option json) :=
  match v with
  | JNull => None
  | JObject members => Some (lookup (lit key) members)
  | _ => Some None
  end.

(** The object [fetchFloatDetails] builds from the first item. *)
Record float_details : Type := FloatDetails {
  float_id : option json;
  lat : option json;
  lon : option json;
  timestamp : option json;
  temperature : option json;
  salinity : option json
}.

Section FloatDetails.

(** [v > 0] for the value of a [length] member of a JSON object: a
    comparison of doubles after [ToNumber], the engine's. *)
Variable positive : json -> bool.

(** [data && data.length > 0], and then [data[0]]: [None] when the test
    fails, otherwise the item, which is [undefined] ([Some None]) when an
    object has a positive [length] and no member [0]. *)
Definition first_item (data : option json) : option (option json) :=
  match data with
  | None => None
  | Some JNull | Some (JBool _) | Some (JNumber _) => None
  | Some (JString s) =>
      match s with
      | [] => None
      | c :: _ => Some (Some (JString [c]))
      end
  | Some (JArray items) =>
      match items with
      | [] => None
      | item :: _ => Some (Some item)
      end
  | Some (JObject members) =>
      match lookup (lit "length") members with
      | Some v => if positive v then Some (lookup (lit "0") members) else None
      | None => None
      end
  end.

(** The object literal of [fetchFloatDetails]; the first property read
    throws on an item that is [null] or [undefined]. *)
Definition details_of (item : option json) : promise float_details :=
  match item with
  | None => Failed
  | Some it =>
      match property "platform_number" it, property "latitude" it,
            property "longitude" it, property "time" it,
            property "temp" it, property "psal" it with
      | Some f, Some la, Some lo, Some ti, Some te, Some sa =>
          Fulfilled (FloatDetails f la lo ti te sa)
      | _, _, _, _, _, _ => Failed
      end
  end.

(** [fetchFloatDetails(floatId)] on a given response to its query: [null]
    is [Fulfilled None]; whatever is thrown is logged and thrown again. *)
Definition fetchFloatDetails (r : response) : promise (option float_details) :=
  match fetchSSEData r with
  | Rejected => Failed
  | Resolved data =>
      match first_item data with
      | None => Fulfilled None
      | Some item =>
          match details_of item with
          | Fulfilled d => Fulfilled (Some d)
          | Failed => Failed
          end
      end
  end.

End FloatDetails.

End Api.
Import Api.

(** ** The rest of the handlers of [pages/Chat.jsx] *)

Module Page.

Local Open Scope handler_scope.

Definition setEditTitle (v : jsstring) : M unit :=
  update (fun st =>
    State (sessions st) (currentSessionId st) (messages st) (inputValue st)
          (isLoading st) (user st) (activeMenuId st) (editingSessionId st)
          v (deletingSessionId st)).

Definition setActiveMenuId (f : option ident -> option ident) : M unit :=
  update (fun st =>
    State (sessions st) (currentSessionId st) (messages st) (inputValue st)
          (isLoading st) (user st) (f (activeMenuId st))
          (editingSessionId st) (editTitle st) (deletingSessionId st)).

(** What the store answers to a [select]: [{ data, error }] with an error,
    or with the rows, which may be [null]. *)
Inductive store_answer (A : Type) : Type :=
| StoreError
| Rows (data : option (list A)).

Arguments StoreError {A}.
Arguments Rows {A} data.

(** [data || []] *)
Definition or_empty {A : Type} (data : option (list A)) : list A :=
  match data with
  | Some rows => rows
  | None => []
  end.

(** [fetchSessions], once the store has answered. *)
Definition fetchSessions (answer : store_answer session) : M unit :=
  match answer with
  | StoreError => ret tt
  | Rows data => setSessions (fun _ => or_empty data)
  end.

(** [fetchMessages(sessionId)], once the store has answered. *)
Definition fetchMessages (answer : store_answer message) : M unit :=
  match answer with
  | StoreError => ret tt
  | Rows data => setMessages (fun _ => or_empty data)
  end.


Definition handleSessionClick (sessionId : ident) (render : state) : M unit :=
  if truthy_id (editingSessionId render) then ret tt
  else
    setCurrentSessionId (Some sessionId) ;;
    setActiveMenuId (fun _ => None).

Definition handleMenuToggle (sessionId : ident) (render : state) : M unit :=
  setActiveMenuId (fun prev =>
    if id_eqb prev (Some sessionId) then None else Some sessionId).

(** [session.title || ''] *)
Definition title_or_empty (s : session) : jsstring :=
  match title s with
  | Some t => t
  | None => []
  end.

Definition startRenaming (s : session) (render : state) : M unit :=
  setEditingSessionId (Some (session_id s)) ;;
  setEditTitle (title_or_empty s) ;;
  setActiveMenuId (fun _ => None).

Definition cancelRename (render : state) : M unit :=
  setEditingSessionId None ;;
  setEditTitle [].

(** The [onChange] of the rename input. *)
Definition typeTitle (v : jsstring) (render : state) : M unit :=
  setEditTitle v.

(** [handleEditKeyDown], given the key pressed and how a rename it starts
    settles. *)
Definition handleEditKeyDown (renamed : completion) (key : jsstring)
  (render : state) : M unit :=
  (if str_eqb key (lit "Enter") then saveRename renamed render else ret tt) ;;
  (if str_eqb key (lit "Escape") then cancelRename render else ret tt).

Definition confirmDeleteClicked (sessionId : ident) (render : state)
  : M unit :=
  setDeletingSessionId (Some sessionId) ;;
  setActiveMenuId (fun _ => None).

(** The [Cancel] button of the confirmation. *)
Definition cancelDelete (render : state) : M unit :=
  setDeletingSessionId None.

(** [disabled={!inputValue.trim() || isLoading}] of the send button. *)
Definition sendDisabled (render : state) : bool :=
  negb (truthy (trim (inputValue render))) || isLoading render.

(** Two handlers one after the other: the second is created by the render
    that follows the first and runs on its state. *)
Definition after {A B : Type} (first : state -> M A) (second : state -> M B)
  (st : state) : B * state * list effect :=
  let '(_, st1, e1) := run first st in
  let '(b, st2, e2) := run second st1 in
  (b, st2, e1 ++ e2).

Section Keys.

Variable ToString : json -> jsstring.

(** [handleKeyDown]: the Enter key without Shift sends. *)
Definition handleKeyDown (env : send_env) (key : jsstring) (shiftKey : bool)
  (render : state) : M send_outcome :=
  if str_eqb key (lit "Enter") && negb shiftKey then
    handleSendMessage ToString env render
  else ret Ignored.

End Keys.

End Page.
Import Page.

(** ** A send on the page: the handler together with the effect on
    [currentSessionId]

    [handleSendMessage] calls [setCurrentSessionId] when it has created its
    session. The render that follows runs the effect on [currentSessionId],
    which starts [fetchMessages]; when the store answers, [setMessages(data
    || [])] replaces the message list the handler and its callbacks are
    working on. The handler is as in [handleSendMessage] above; what the
    world supplies in addition is the answer of the store and the moment it
    arrives. The updates of one continuation of the handler are rendered
    together, and the effect runs after that render. The [select] of the
    reload is the effect's request, not the handler's, and is not recorded
    among the effects. *)

Module PageSend.

Local Open Scope handler_scope.

(** When the store answers the reload: after the first [k] callbacks of
    the stream (after all of them when there are fewer) and before the
    handler goes on, or once the handler has settled. *)
Inductive reload_point : Type :=
| DuringStream (k : nat)
| AfterSend.

Record reload : Type := Reload {
  reload_answer : store_answer message;
  reload_at : reload_point
}.

Definition at_end (p : reload_point) : bool :=
  match p with
  | AfterSend => true
  | DuringStream _ => false
  end.

(** What the effect does at once, [currentSessionId] having been [before]
    in the render before and being [now]: it does not run when the
    identifier is the same; it empties the messages when the identifier is
    falsy; otherwise it starts the reload, which is answered later. *)
Definition effect_run (before now : option ident) : M unit :=
  if id_eqb before now then ret tt
  else if truthy_id now then ret tt
  else setMessages (fun _ => []).

Definition reload_started (before now : option ident) : bool :=
  negb (id_eqb before now) && truthy_id now.

(** Whether a send starts a reload: it created its session, and the effect
    ran on an identifier that is truthy. *)
Definition send_reloads (env : send_env) (render : state) : bool :=
  negb (truthy_id (currentSessionId render)) &&
  match inserted env with
  | Inserted newSession =>
      reload_started (currentSessionId render) (Some (session_id newSession))
  | InsertError => false
  end.

Section PageSend.

Variable ToString : json -> jsstring.

(** The [try] block of [handleSendMessage] on the page. *)
Definition page_send_body (env : send_env) (rl : reload) (render : state)
  (queryText : jsstring) : M completion :=
  created <-
    (if negb (truthy_id (currentSessionId render)) then
       emit (InsertSession (user render) (lit "New Chat")) ;;
       match inserted env with
       | InsertError => ret None
       | Inserted newSession =>
           let sessionId := Some (session_id newSession) in
           setCurrentSessionId sessionId ;;
           setSessions (fun prev => newSession :: prev) ;;
           ret (Some sessionId)
       end
     else ret (Some (currentSessionId render))) ;;
  match created with
  | None => ret Thrown
  | Some sessionId =>
      let assistantMessageId := Number_toString (now_assistant env + 1) in
      setMessages (fun prev =>
        prev ++ [Message assistantMessageId assistant_role []
                         (Some (iso_assistant env)) None]) ;;
      effect_run (currentSessionId render) sessionId ;;
      emit (PostQuery queryText sessionId) ;;
      let (chunks, c) := streamChatResponse (chat_response env) in
      match reload_at rl with
      | DuringStream k =>
          forEach (firstn k chunks) (onChunk ToString assistantMessageId) ;;
          when (reload_started (currentSessionId render) sessionId)
               (fetchMessages (reload_answer rl)) ;;
          forEach (skipn k chunks) (onChunk ToString assistantMessageId)
      | AfterSend => forEach chunks (onChunk ToString assistantMessageId)
      end ;;
      ret c
  end.

(** [handleSendMessage] on the page, with the reload it may start. *)
Definition send_on_page (env : send_env) (rl : reload) (render : state)
  : M send_outcome :=
  if negb (truthy (trim (inputValue render))) || isLoading render then
    ret Ignored
  else
    let queryText := inputValue render in
    let tempUserMsgId := Number_toString (now_user env) in
    let userMessage :=
      Message tempUserMsgId user_role queryText (Some (iso_user env)) None in
    setMessages (fun prev => prev ++ [userMessage]) ;;
    setInputValue [] ;;
    setIsLoading true ;;
    c <- page_send_body env rl render queryText ;;
    match c with
    | Returned => ret tt
    | Thrown =>
        setMessages (fun prev =>
          prev ++ [Message (lit "error-" ++ Number_toString (now_error env))
                           assistant_role
                           (lit "Error: Unable to process request.")
                           None None])
    end ;;
    setIsLoading false ;;
    when (truthy_id (currentSessionId render)) (emit FetchSessions) ;;
    when (send_reloads env render && at_end (reload_at rl))
         (fetchMessages (reload_answer rl)) ;;
    ret (Settled c).

End PageSend.

End PageSend.
Import PageSend.

(** ** Further notions used in the statements *)

Module MoreNotions.

(** A block that can be framed: it holds no blank line and does not end
    with a line feed. *)
Definition framed (b : jsstring) : bool :=
  negb (includes b [LF; LF]) &&
  match rev b with
  | c :: _ => negb (N.eqb c LF)
  | [] => true
  end.

(** The lines of a block the decoder reads: those that give the event
    type and those that give data. *)
Definition is_event_line (line : jsstring) : bool :=
  startsWith line (lit "event: ").

Definition is_data_line (line : jsstring) : bool :=
  startsWith line (lit "data: ").

(** The title being edited passes the guard of [saveRename]: it is not
    blank and differs from the title of the session being edited. *)
Definition sendable_title (render : state) : bool :=
  negb (negb (truthy (trim (editTitle render))) || title_unchanged render).

(** The payload of the last [visualization] callback of a sequence. *)
Fixpoint last_visualization (cbs : list callback) : option json :=
  match cbs with
  | [] => None
  | c :: rest =>
      match last_visualization rest with
      | Some v => Some v
      | None =>
          match type c with
          | VisualizationChunk => Some (payload c)
          | _ => None
          end
      end
  end.

(** A stream of a chunk, a keep-alive, a visualization and an error, with
    an unfinished block behind, and a way the network may deliver it. *)
Definition mixed_blocks : list jsstring :=
  [block ["event: chunk"; "data: Hi"]%string;
   lit ": ping";
   block ["event: visualization"; "data: [1]"]%string;
   block ["event: error"; "data: boom"]%string].

Definition mixed_reads : list jsstring :=
  [firstn 30 (wire mixed_blocks); skipn 30 (wire mixed_blocks);
   lit "event: chunk"].

(** Two reads that carry one [metadata] block whose data is [[7]]. *)
Definition metadata_reads : list jsstring :=
  [lit "event: metadata" ++ LF :: lit "data: {";
   quoted "data" ++ lit ": [7]}" ++ [LF; LF]].

(** A page with two sessions listed, the second one active. *)
Definition two_sessions_page : state :=
  State [new_session; old_session] (Some (lit "6f1c2d3e")) [old_message] []
        false (Some (lit "u-1")) (Some (lit "9a2e4b6c")) None [] None.

(** The same page once the deletion of the session that is not active has
    been asked for. *)
Definition deleting_other_page : state :=
  State [new_session; old_session] (Some (lit "6f1c2d3e")) [old_message] []
        false (Some (lit "u-1")) None None [] (Some (lit "9a2e4b6c")).

(** One read that carries a [metadata] block whose data is an array of one
    row, an object with a platform number and a salinity. *)
Definition details_reads : list jsstring :=
  [lit "event: metadata" ++ LF :: lit "data: {" ++ quoted "data" ++
   lit ": [{" ++ quoted "platform_number" ++ lit ": 7, " ++ quoted "psal" ++
   lit ": 35}]}" ++ [LF; LF]].

(** The question of [fresh_page] as the backend saved it: a row with an
    identifier of the store. *)
Definition stored_question : message :=
  Message (lit "c41d") user_role (lit "hello")
          (Some (lit "2025-01-02T00:00:00.002Z")) None.

(** The messages a send on the page ends with when it created its session
    and the store answered the reload with [data]: the rows of the store,
    with the callbacks that came after the answer applied to them and the
    report of a failure behind; the rows alone when the answer came once
    the handler had settled. *)
Definition reloaded_messages (ToString : json -> jsstring) (env : send_env)
  (p : reload_point) (data : option (list message))
  (cbs : list callback) (c : completion) : list message :=
  match p with
  | DuringStream k =>
      map (apply_chunks ToString (assistant_id env) (skipn k cbs))
          (or_empty data)
      ++ match c with
         | Returned => []
         | Thrown => [failure_message env]
         end
  | AfterSend => or_empty data
  end.

(** The world of a send whose session cannot be created. *)
Definition no_store : send_env :=
  SendEnv 1700000000000 (lit "2025-01-02T00:00:00.000Z") InsertError
          1700000000004 (lit "2025-01-02T00:00:00.004Z") FetchFailed
          1700000000009.

End MoreNotions.
Import MoreNotions.

(** * Properties *)

(** ** Facts about the string primitives *)

Section StringFacts.

Lemma str_eqb_refl (a : jsstring) : str_eqb a a = true.
Proof.
  induction a as [|x a IH]; simpl; [reflexivity|].
  now rewrite N.eqb_refl.
Qed.

Lemma str_eqb_eq (a b : jsstring) : str_eqb a b = true <-> a = b.
Proof.
  split; [|intros ->; apply str_eqb_refl].
  revert b; induction a as [|x a IH]; intros [|y b]; simpl; try discriminate.
  - reflexivity.
  - intros H. apply andb_true_iff in H as [Hx Hr].
    apply N.eqb_eq in Hx. f_equal; auto.
Qed.

Lemma str_eqb_neq (a b : jsstring) : str_eqb a b = false <-> a <> b.
Proof.
  split.
  - intros H E. apply str_eqb_eq in E. congruence.
  - intros H. destruct (str_eqb a b) eqn:E; [|reflexivity].
    apply str_eqb_eq in E. contradiction.
Qed.

Lemma startsWith_prefix (s p : jsstring) :
  startsWith s p = true <-> exists r, s = p ++ r.
Proof.
  revert s; induction p as [|x p IH]; intros s; simpl.
  - split; [intros _; now exists s | reflexivity].
  - destruct s as [|y s].
    + split; [discriminate | intros [r Hr]; discriminate].
    + rewrite andb_true_iff, N.eqb_eq, IH. split.
      * intros [-> [r ->]]. now exists r.
      * intros [r Hr]. injection Hr as -> ->.
        split; [reflexivity | now exists r].
Qed.

Lemma startsWith_app (s t p : jsstring) :
  List.length p <= List.length s -> startsWith (s ++ t) p = startsWith s p.
Proof.
  revert s; induction p as [|x p IH]; intros s Hl; simpl; [reflexivity|].
  destruct s as [|y s]; simpl in *; [lia|].
  rewrite IH by lia. reflexivity.
Qed.

Lemma cut_spec (sep s before after : jsstring) :
  cut sep s = Some (before, after) -> s = before ++ sep ++ after.
Proof.
  revert before after; induction s as [|c s IH]; intros b a; simpl.
  - destruct (startsWith [] sep) eqn:E; [|discriminate].
    intros H. injection H as <- <-.
    apply startsWith_prefix in E as [r Hr].
    destruct sep; [|discriminate]. now rewrite skipn_nil.
  - destruct (startsWith (c :: s) sep) eqn:E.
    + intros H. injection H as <- <-.
      apply startsWith_prefix in E as [r Hr]. rewrite Hr. simpl.
      now rewrite skipn_app, skipn_all, Nat.sub_diag.
    + destruct (cut sep s) as [[b' a']|] eqn:Ec; [|discriminate].
      intros H. injection H as <- <-. simpl. f_equal. now apply IH.
Qed.

Lemma cut_length (sep s before after : jsstring) :
  cut sep s = Some (before, after) ->
  List.length s = List.length before + List.length sep + List.length after.
Proof.
  intros H. apply cut_spec in H. subst s. rewrite !length_app. lia.
Qed.

(** An occurrence found in the text read so far is the one found once
    more text has arrived. *)
Lemma cut_app (sep s t before after : jsstring) :
  cut sep s = Some (before, after) ->
  cut sep (s ++ t) = Some (before, after ++ t).
Proof.
  revert before after; induction s as [|c s IH]; intros b a H.
  - simpl in H. destruct (startsWith [] sep) eqn:E; [|discriminate].
    injection H as <- <-.
    apply startsWith_prefix in E as [r Hr].
    destruct sep; [|discriminate]. simpl. destruct t; reflexivity.
  - pose proof (cut_length _ _ _ _ H) as Hlen.
    simpl in H. change ((c :: s) ++ t) with (c :: (s ++ t)).
    cbn [cut]. change (c :: (s ++ t)) with ((c :: s) ++ t).
    rewrite startsWith_app by lia.
    destruct (startsWith (c :: s) sep) eqn:E.
    + injection H as <- <-. f_equal. f_equal.
      rewrite skipn_app.
      replace (List.length sep - List.length (c :: s)) with 0 by lia.
      reflexivity.
    + destruct (cut sep s) as [[b' a']|] eqn:Ec; [|discriminate].
      injection H as <- <-.
      simpl. now rewrite (IH _ _ eq_refl).
Qed.

Lemma cut_in_nil (sep : jsstring) : sep <> [] -> cut sep [] = None.
Proof. destruct sep; [contradiction | reflexivity]. Qed.

Lemma split_loop (s sep : jsstring) :
  sep <> [] -> split s sep = split_from (List.length s) sep s.
Proof. destruct sep; [contradiction | reflexivity]. Qed.

Section NonEmptySeparator.

Variable sep : jsstring.
Hypothesis sep_not_empty : sep <> [].

Lemma cut_shorter (s before after : jsstring) :
  cut sep s = Some (before, after) -> List.length after < List.length s.
Proof.
  intros H. apply cut_length in H.
  assert (0 < List.length sep) by (destruct sep; [contradiction | simpl; lia]).
  lia.
Qed.

(** The rounds granted to the loop of [split] are enough: more change
    nothing. *)
Lemma split_from_enough (f1 f2 : nat) (s : jsstring) :
  List.length s <= f1 -> List.length s <= f2 ->
  split_from f1 sep s = split_from f2 sep s.
Proof.
  revert f2 s; induction f1 as [|f1 IH]; intros f2 s H1 H2.
  - destruct s; [|simpl in H1; lia].
    destruct f2; cbn [split_from]; [reflexivity|].
    now rewrite cut_in_nil.
  - destruct f2 as [|f2].
    + destruct s; [|simpl in H2; lia]. cbn [split_from].
      now rewrite cut_in_nil.
    + simpl. destruct (cut sep s) as [[b a]|] eqn:E; [|reflexivity].
      apply cut_shorter in E. f_equal. apply IH; lia.
Qed.

(** [split] is the loop the language definition describes. *)
Lemma split_unfold (s : jsstring) :
  split s sep =
  match cut sep s with
  | None => [s]
  | Some (before, after) => before :: split after sep
  end.
Proof.
  rewrite split_loop by assumption.
  destruct (cut sep s) as [[b a]|] eqn:E.
  - pose proof (cut_shorter _ _ _ E) as Hl.
    destruct (List.length s) as [|n] eqn:Hn; [lia|].
    cbn [split_from]. rewrite E. f_equal.
    rewrite split_loop by assumption. apply split_from_enough; lia.
  - destruct (List.length s); cbn [split_from]; [reflexivity | now rewrite E].
Qed.

Lemma split_not_nil (s : jsstring) : split s sep <> [].
Proof.
  rewrite split_unfold. destruct (cut sep s) as [[b a]|]; discriminate.
Qed.

(** Induction along the occurrences of the separator. *)
Lemma split_induction (P : jsstring -> Prop) :
  (forall s, cut sep s = None -> P s) ->
  (forall s before after,
      cut sep s = Some (before, after) -> P after -> P s) ->
  forall s, P s.
Proof.
  intros Hnone Hsome s.
  remember (List.length s) as n eqn:Hn.
  revert s Hn; induction n as [n IH] using lt_wf_ind; intros s Hn.
  destruct (cut sep s) as [[b a]|] eqn:E.
  - apply (Hsome _ _ _ E). apply (IH (List.length a)); [|reflexivity].
    apply cut_shorter in E. lia.
  - now apply Hnone.
Qed.

(** Splitting a text that grew by [t]: the complete parts found before
    are found again, and the rest is the split of the retained last part
    followed by [t]. *)
Lemma split_app (s t : jsstring) :
  split (s ++ t) sep =
  removelast (split s sep) ++ split (last (split s sep) [] ++ t) sep.
Proof.
  induction s as [s E | s b a E IH] using split_induction.
  - rewrite (split_unfold s), E. reflexivity.
  - rewrite (split_unfold s), E.
    rewrite (split_unfold (s ++ t)), (cut_app _ _ t _ _ E).
    rewrite IH.
    pose proof (split_not_nil a) as Hne.
    destruct (split a sep) as [|p ps] eqn:Ea; [contradiction|].
    reflexivity.
Qed.

(** The part retained in the buffer holds no separator. *)
Lemma cut_last_split (s : jsstring) :
  cut sep (last (split s sep) []) = None.
Proof.
  induction s as [s E | s b a E IH] using split_induction.
  - rewrite split_unfold, E. exact E.
  - rewrite split_unfold, E.
    pose proof (split_not_nil a) as Hne.
    destruct (split a sep) as [|p ps] eqn:Ea; [contradiction|].
    exact IH.
Qed.

Lemma split_no_sep (s : jsstring) : cut sep s = None -> split s sep = [s].
Proof. intros E. now rewrite split_unfold, E. Qed.

(** Every code unit of a part is a code unit of the text. *)
Lemma split_incl (s part : jsstring) (c : N) :
  In part (split s sep) -> In c part -> In c s.
Proof.
  induction s as [s E | s b a E IH] using split_induction.
  - rewrite split_unfold, E. intros [<-|[]]. auto.
  - rewrite split_unfold, E. apply cut_spec in E. subst s.
    intros [<-|Hin] Hc; rewrite !in_app_iff; auto.
Qed.

End NonEmptySeparator.



Lemma lit_injective (a b : string) : lit a = lit b -> a = b.
Proof.
  unfold lit. revert b; induction a as [|x a IH]; intros [|y b]; simpl;
    try discriminate; [reflexivity|].
  intros H. injection H as Hx Hr.
  f_equal; [|now apply IH].
  rewrite <- (ascii_N_embedding x), <- (ascii_N_embedding y). now rewrite Hx.
Qed.

(** Two clock readings with the same decimal rendering are equal. *)
Lemma Number_toString_injective (n m : N) :
  Number_toString n = Number_toString m -> n = m.
Proof.
  unfold Number_toString. intros H. apply lit_injective in H.
  assert (E : N.to_uint n = N.to_uint m).
  { pose proof (DecimalString.NilEmpty.usu (N.to_uint n)) as Hn.
    pose proof (DecimalString.NilEmpty.usu (N.to_uint m)) as Hm.
    rewrite H in Hn. congruence. }
  rewrite <- (DecimalN.Unsigned.of_to n), <- (DecimalN.Unsigned.of_to m).
  now rewrite E.
Qed.

End StringFacts.

(** ** The stream decoder *)

Section DecoderFacts.

Lemma blank_line_not_empty : [LF; LF] <> [].
Proof. discriminate. Qed.


(** The chat-mode loop delivers the callbacks of the complete blocks of
    the text it has been given, whatever the reads were. *)
Lemma read_loop_blocks (chunks : list jsstring) :
  forall buffer,
    cut [LF; LF] buffer = None ->
    read_loop buffer chunks =
    flat_map process_part (complete_blocks (buffer ++ List.concat chunks)).
Proof.
  induction chunks as [|value rest IH]; intros buffer Hb.
  - simpl. rewrite app_nil_r. unfold complete_blocks.
    now rewrite (split_no_sep _ blank_line_not_empty _ Hb).
  - cbn [read_loop pop List.concat].
    rewrite IH by apply (cut_last_split _ blank_line_not_empty).
    unfold complete_blocks.
    rewrite (app_assoc buffer value).
    rewrite (split_app _ blank_line_not_empty
                       (buffer ++ value) (List.concat rest)).
    rewrite removelast_app by apply (split_not_nil _ blank_line_not_empty).
    now rewrite flat_map_app.
Qed.

Lemma scan_events_app (events more : list jsstring) :
  scan_events (events ++ more) =
  match scan_events events with
  | Some data => Some data
  | None => scan_events more
  end.
Proof.
  induction events as [|e events IH]; simpl; [reflexivity|].
  destruct (process_block e); auto.
Qed.

(** The one-shot loop likewise depends on the text only. *)
Lemma query_loop_blocks (chunks : list jsstring) :
  forall buffer,
    cut [LF; LF] buffer = None ->
    query_loop buffer chunks =
    scan_events (complete_blocks (buffer ++ List.concat chunks)).
Proof.
  induction chunks as [|value rest IH]; intros buffer Hb.
  - simpl. rewrite app_nil_r. unfold complete_blocks.
    now rewrite (split_no_sep _ blank_line_not_empty _ Hb).
  - cbn [query_loop pop List.concat].
    rewrite IH by apply (cut_last_split _ blank_line_not_empty).
    unfold complete_blocks.
    rewrite (app_assoc buffer value).
    rewrite (split_app _ blank_line_not_empty
                       (buffer ++ value) (List.concat rest)).
    rewrite removelast_app by apply (split_not_nil _ blank_line_not_empty).
    now rewrite scan_events_app.
Qed.

(** *** The lines of a block *)




Lemma event_line_not_data (line : jsstring) :
  startsWith line (lit "event: ") = true ->
  startsWith line (lit "data: ") = false.
Proof.
  intros H. apply startsWith_prefix in H as [r ->]. reflexivity.
Qed.

Lemma join_cons (c : jsstring) (rest : list jsstring) :
  join [LF] (c :: rest) = c ++ List.concat (map (cons LF) rest).
Proof.
  revert c; induction rest as [|d rest IH]; intros c.
  - simpl. now rewrite app_nil_r.
  - change (join [LF] (c :: d :: rest))
      with (c ++ [LF] ++ join [LF] (d :: rest)).
    rewrite IH. reflexivity.
Qed.

Lemma read_lines_data_from (lines : list jsstring) :
  forall t d,
    snd (fold_left read_line lines (t, d)) =
    if truthy d then d ++ List.concat (map (cons LF) (data_contents lines))
    else join [LF] (drop_empty (data_contents lines)).
Proof.
  unfold data_contents.
  induction lines as [|l lines IH]; intros t d.
  - simpl. destruct d; simpl; [reflexivity | now rewrite app_nil_r].
  - cbn [fold_left]. unfold read_line at 2.
    destruct (startsWith l (lit "event: ")) eqn:Ee.
    + rewrite IH. cbn [filter]. now rewrite (event_line_not_data _ Ee).
    + cbn [filter]. destruct (startsWith l (lit "data: ")) eqn:Ed.
      * rewrite IH. cbn [map drop_empty List.concat].
        destruct d as [|x d].
        -- cbn [truthy app]. destruct (slice l 6) as [|y c] eqn:Ec.
           ++ reflexivity.
           ++ cbn [truthy]. now rewrite join_cons.
        -- cbn [truthy]. rewrite <- app_assoc. reflexivity.
      * now rewrite IH.
Qed.

(** The data of a block as the loop assembles it: the contents of its
    data lines joined by a line feed, once the leading empty contents are
    left out. *)
Lemma read_lines_data (lines : list jsstring) :
  snd (read_lines lines) = join [LF] (drop_empty (data_contents lines)).
Proof. unfold read_lines. now rewrite read_lines_data_from. Qed.

(** When the first data line has content, that is the join of all the
    contents. *)
Lemma read_lines_data_join (lines : list jsstring) (c : N) (first : jsstring)
  (others : list jsstring) :
  data_contents lines = (c :: first) :: others ->
  snd (read_lines lines) = join [LF] (data_contents lines).
Proof. intros H. now rewrite read_lines_data, H. Qed.

End DecoderFacts.

(** ** Claims about the stream decoder *)

Section DecoderClaims.

(** C1. Chunk-boundary independence: two sequences of reads that carry the
    same text make [streamChatResponse] invoke the callback with the same
    payloads and types in the same order, and complete the same way. *)
Theorem chunk_boundary_independence
  (chunks resplit : list jsstring) (ending : stream_end) :
  List.concat resplit = List.concat chunks ->
  streamChatResponse (Body resplit ending) =
  streamChatResponse (Body chunks ending).
Proof.
  intros H. destruct ending; simpl;
    rewrite !read_loop_blocks by reflexivity; simpl; now rewrite H.
Qed.

Lemma chunk_boundary_independence_witness :
  List.concat abc_four_reads = List.concat abc_one_read /\
  streamChatResponse (Body abc_four_reads Done) =
  streamChatResponse (Body abc_one_read Done).
Proof.
  split; [reflexivity|].
  apply (chunk_boundary_independence abc_one_read abc_four_reads Done).
  reflexivity.
Defined.

(** C4. In a block whose first [data: ] line has empty content, the
    decoder does not produce the join of the contents: the leading empty
    content and its separator are lost. The contents [""] and ["x"] joined
    by a line feed are a line feed followed by [x]; the decoder assembles
    [x] and delivers it. *)
Theorem leading_empty_data_line_lost :
  let part := block ["event: chunk"; "data: "; "data: x"]%string in
  data_contents (split part [LF]) = [[]; lit "x"] /\
  join [LF] [[]; lit "x"] = LF :: lit "x" /\
  snd (read_lines (split part [LF])) = lit "x" /\
  streamChatResponse (Body [wire [part]] Done) =
  ([OnChunk (JString (lit "x")) TextChunk], Returned).
Proof. vm_compute. repeat split; reflexivity. Qed.

(** The one-shot path reads the first [data: ] line only: a payload
    spread over two lines is not assembled. *)
Lemma one_shot_reads_first_data_line :
  let eventStr := block ["event: metadata"; "data: [1,"; "data: 2]"]%string in
  JSON_parse (join [LF] (data_contents (split eventStr [LF]))) =
  Some (JArray [JNumber (lit "1"); JNumber (lit "2")]) /\
  process_block eventStr = ParseFailed.
Proof. vm_compute. split; reflexivity. Qed.



(** A [chunk] block that quotes the text as a JSON string does end the
    query, with [undefined] as its result. *)
Example metadata_text_in_json_string :
  process_block
    (lit "event: chunk" ++ LF :: lit "data: " ++ quoted "event: metadata")
  = Found None.
Proof. reflexivity. Qed.



End DecoderClaims.

(** ** The chat page *)

Section ChatFacts.

Variable ToString : json -> jsstring.

Lemma string_plus_app (s : jsstring) (v : json) :
  string_plus ToString s v = s ++ string_plus ToString [] v.
Proof. destruct v; reflexivity. Qed.

Lemma apply_chunk_other (aid : ident) (c : callback) (m : message) :
  id m <> aid -> apply_chunk ToString aid c m = m.
Proof.
  intros H. unfold apply_chunk.
  apply str_eqb_neq in H. now rewrite H.
Qed.

Lemma apply_chunks_other (aid : ident) (cbs : list callback) (m : message) :
  id m <> aid -> apply_chunks ToString aid cbs m = m.
Proof.
  intros H. unfold apply_chunks.
  induction cbs as [|c cbs IH]; simpl; [reflexivity|].
  now rewrite apply_chunk_other.
Qed.

Lemma apply_chunk_target (c : callback) (m : message) :
  let m' := apply_chunk ToString (id m) c m in
  id m' = id m /\ msg_role m' = msg_role m /\
  created_at m' = created_at m /\
  content m' = content m ++ chunk_text ToString c.
Proof.
  unfold apply_chunk, chunk_text. rewrite str_eqb_refl. simpl.
  destruct (type c); simpl;
    rewrite ?app_nil_r, ?(string_plus_app (content m)); auto.
Qed.

(** On the message the callbacks are aimed at, they append their texts in
    order and touch neither its identifier, its role nor its date. *)
Lemma apply_chunks_target (cbs : list callback) :
  forall m,
    let m' := apply_chunks ToString (id m) cbs m in
    id m' = id m /\ msg_role m' = msg_role m /\
    created_at m' = created_at m /\
    content m' = content m ++ delivered_text ToString cbs.
Proof.
  unfold apply_chunks, delivered_text.
  induction cbs as [|c cbs IH]; intros m; simpl.
  - now rewrite app_nil_r.
  - destruct (apply_chunk_target c m) as [Hi [Hr [Hd Hc]]].
    specialize (IH (apply_chunk ToString (id m) c m)).
    rewrite Hi in IH. destruct IH as [Hi' [Hr' [Hd' Hc']]].
    rewrite Hi', Hr', Hd', Hc', Hc, <- app_assoc. auto.
Qed.

(** The loop over the callbacks maps their combined effect over the
    message list. *)
Lemma forEach_onChunk (aid : ident) (cbs : list callback) :
  forall st,
    forEach cbs (onChunk ToString aid) st =
    (tt,
     State (sessions st) (currentSessionId st)
           (map (apply_chunks ToString aid cbs) (messages st))
           (inputValue st) (isLoading st) (user st) (activeMenuId st)
           (editingSessionId st) (editTitle st) (deletingSessionId st),
     []).
Proof.
  induction cbs as [|c cbs IH]; intros st.
  - destruct st. simpl. unfold ret. now rewrite map_id.
  - cbn [forEach]. unfold bind. cbn [onChunk setMessages update].
    rewrite IH. cbn. rewrite map_map. reflexivity.
Qed.

#[local] Arguments lit : simpl never.
#[local] Arguments Number_toString : simpl never.

(** Running a send symbolically: the page is taken apart, the tests of the
    handler are decided by the hypotheses at hand, and the chain of binds
    is computed. *)
Ltac run_send render :=
  destruct render as [ss cur ms input loading usr menu edit etitle del];
  cbn [inputValue isLoading currentSessionId] in *;
  unfold run, handleSendMessage, send_body, settled_messages;
  cbn [inputValue isLoading currentSessionId];
  repeat match goal with
         | H : _ = _ |- _ => rewrite H
         end;
  cbn [negb]; unfold bind; cbn.

Lemma send_ignored (env : send_env) (render : state) :
  negb (truthy (trim (inputValue render))) || isLoading render = true ->
  run (handleSendMessage ToString env) render = (Ignored, render, []).
Proof.
  intros H. unfold run, handleSendMessage. now rewrite H.
Qed.

Lemma send_in_new_session
  (env : send_env) (render : state) (ns : session)
  (cbs : list callback) (c : completion) :
  negb (truthy (trim (inputValue render))) || isLoading render = false ->
  truthy_id (currentSessionId render) = false ->
  inserted env = Inserted ns ->
  streamChatResponse (chat_response env) = (cbs, c) ->
  run (handleSendMessage ToString env) render =
  (Settled c,
   State (ns :: sessions render) (Some (session_id ns))
         (settled_messages ToString env render cbs c)
         [] false (user render) (activeMenuId render)
         (editingSessionId render) (editTitle render)
         (deletingSessionId render),
   [InsertSession (user render) (lit "New Chat");
    PostQuery (inputValue render) (Some (session_id ns))]).
Proof.
  intros Hg Hc Hi Es. run_send render. rewrite forEach_onChunk.
  destruct c; cbn; rewrite ?app_nil_r; reflexivity.
Qed.

Lemma send_in_active_session
  (env : send_env) (render : state) (cbs : list callback) (c : completion) :
  negb (truthy (trim (inputValue render))) || isLoading render = false ->
  truthy_id (currentSessionId render) = true ->
  streamChatResponse (chat_response env) = (cbs, c) ->
  run (handleSendMessage ToString env) render =
  (Settled c,
   State (sessions render) (currentSessionId render)
         (settled_messages ToString env render cbs c)
         [] false (user render) (activeMenuId render)
         (editingSessionId render) (editTitle render)
         (deletingSessionId render),
   [PostQuery (inputValue render) (currentSessionId render); FetchSessions]).
Proof.
  intros Hg Hc Es. run_send render. rewrite forEach_onChunk.
  destruct c; cbn; rewrite ?app_nil_r; reflexivity.
Qed.

Lemma send_insert_failed (env : send_env) (render : state) :
  negb (truthy (trim (inputValue render))) || isLoading render = false ->
  truthy_id (currentSessionId render) = false ->
  inserted env = InsertError ->
  run (handleSendMessage ToString env) render =
  (Settled Thrown,
   State (sessions render) (currentSessionId render)
         (messages render ++ [user_message env render; failure_message env])
         [] false (user render) (activeMenuId render)
         (editingSessionId render) (editTitle render)
         (deletingSessionId render),
   [InsertSession (user render) (lit "New Chat")]).
Proof.
  intros Hg Hc Hi. run_send render. now rewrite <- app_assoc.
Qed.

(** A send that settles was not turned away at the guard. *)
Lemma settled_passed_guard (env : send_env) (render : state) (c : completion) :
  result_of (run (handleSendMessage ToString env) render) = Settled c ->
  negb (truthy (trim (inputValue render))) || isLoading render = false.
Proof.
  intros H.
  destruct (negb (truthy (trim (inputValue render))) || isLoading render)
    eqn:Hg; [|reflexivity].
  rewrite send_ignored in H by assumption. discriminate.
Qed.

(** The user message is not the target of the callbacks when the clock
    does not run backwards between the two readings. *)
Lemma user_message_kept
  (env : send_env) (render : state) (cbs : list callback) :
  (now_user env <= now_assistant env)%N ->
  apply_chunks ToString (assistant_id env) cbs (user_message env render) =
  user_message env render.
Proof.
  intros H. apply apply_chunks_other. unfold user_message, assistant_id.
  cbn [id]. intros E. apply Number_toString_injective in E. lia.
Qed.

Lemma settled_messages_shape
  (env : send_env) (render : state) (cbs : list callback) :
  (now_user env <= now_assistant env)%N ->
  settled_messages ToString env render cbs Returned =
  map (apply_chunks ToString (assistant_id env) cbs) (messages render) ++
  [user_message env render;
   apply_chunks ToString (assistant_id env) cbs (placeholder env)].
Proof.
  intros H. unfold settled_messages.
  rewrite app_nil_r, !map_app. cbn [map].
  rewrite user_message_kept by assumption.
  now rewrite <- app_assoc.
Qed.

Lemma settled_messages_last
  (env : send_env) (render : state) (cbs : list callback) :
  settled_messages ToString env render cbs Returned =
  map (apply_chunks ToString (assistant_id env) cbs)
      (messages render ++ [user_message env render]) ++
  [apply_chunks ToString (assistant_id env) cbs (placeholder env)].
Proof. unfold settled_messages. now rewrite app_nil_r, map_app. Qed.

End ChatFacts.

(** ** Claims about the chat page *)

Section ChatClaims.

Variable ToString : json -> jsstring.

(** C8. After a send that settles, with the stream completed or thrown, a
    refresh of the session list is among the requests exactly when a
    session was active (the identifier held by [currentSessionId] is
    neither [null] nor empty) in the render the send was issued from; a
    send that had to create its session activates it and asks for no
    refresh. *)
Theorem refresh_iff_session_was_active
  (env : send_env) (render : state) (c : completion) :
  result_of (run (handleSendMessage ToString env) render) = Settled c ->
  let r := run (handleSendMessage ToString env) render in
  (In FetchSessions (effects_of r) <->
   truthy_id (currentSessionId render) = true) /\
  (forall ns,
      truthy_id (currentSessionId render) = false ->
      inserted env = Inserted ns ->
      currentSessionId (state_of r) = Some (session_id ns) /\
      ~ In FetchSessions (effects_of r)).
Proof.
  intros Hout r. subst r.
  pose proof (settled_passed_guard _ _ _ _ Hout) as Hg.
  destruct (streamChatResponse (chat_response env)) as [cbs c'] eqn:Es.
  destruct (truthy_id (currentSessionId render)) eqn:Hc.
  - rewrite (send_in_active_session ToString env render _ _ Hg Hc Es).
    unfold effects_of. cbn [snd]. split.
    + split; [reflexivity | intros _; right; now left].
    + intros ns Hf. discriminate.
  - destruct (inserted env) as [ns|] eqn:Hi.
    + rewrite (send_in_new_session ToString env render ns _ _ Hg Hc Hi Es).
      unfold effects_of, state_of. cbn [fst snd currentSessionId].
      assert (Hno : ~ In FetchSessions
                      [InsertSession (user render) (lit "New Chat");
                       PostQuery (inputValue render) (Some (session_id ns))])
        by (intros [H|[H|[]]]; discriminate).
      split.
      * split; [intros H; contradiction | discriminate].
      * intros ns' _ Hns. injection Hns as <-. now split.
    + rewrite send_insert_failed by assumption.
      unfold effects_of. cbn [snd]. split.
      * split; [intros [H|[]]; discriminate | discriminate].
      * intros ns' _ Hns. discriminate.
Qed.

End ChatClaims.

Section RenameDeleteClaims.

(** C5. A rename whose trimmed title is empty, or whose title is the one
    the session being edited already has, leaves the session list as it
    is and sends no request; the only change is that the edit is
    closed. *)
Theorem rename_without_change_is_noop (renamed : completion) (render : state) :
  (trim (editTitle render) = [] \/
   exists s, editing_session render = Some s /\
             title s = Some (editTitle render)) ->
  let r := run (saveRename renamed) render in
  sessions (state_of r) = sessions render /\
  effects_of r = [] /\
  state_of r =
    State (sessions render) (currentSessionId render) (messages render)
          (inputValue render) (isLoading render) (user render)
          (activeMenuId render) None (editTitle render)
          (deletingSessionId render).
Proof.
  intros H r. subst r.
  assert (Hg : negb (truthy (trim (editTitle render)))
               || title_unchanged render = true).
  { destruct H as [H | [s [Hs Ht]]].
    - now rewrite H.
    - unfold title_unchanged. rewrite Hs, Ht, str_eqb_refl.
      apply orb_true_r. }
  unfold run, saveRename. rewrite Hg.
  destruct render. repeat split.
Qed.

(** What a rename that goes through does first: the title is applied to
    the session being edited, and the request is sent. *)
Lemma rename_applied (render : state) :
  negb (truthy (trim (editTitle render))) || title_unchanged render = false ->
  let r := run (saveRename Returned) render in
  sessions (state_of r) =
    map (fun s =>
           if id_eqb (Some (session_id s)) (editingSessionId render)
           then with_title s (editTitle render) else s)
        (sessions render) /\
  effects_of r = [PatchSession (editingSessionId render) (editTitle render)].
Proof.
  intros Hg r. subst r. unfold run, saveRename. rewrite Hg.
  destruct render. split; reflexivity.
Qed.

(** C6. When the request of a rename fails, the session list ends as the
    list of the render the rename started from, so every session, the
    renamed one included, has the title it had. *)
Theorem failed_rename_restores_snapshot
  (render : state) (sid : option ident) (t : jsstring) :
  let r := run (saveRename Thrown) render in
  In (PatchSession sid t) (effects_of r) ->
  sessions (state_of r) = sessions render /\
  forall i,
    option_map title
      (find (fun s => str_eqb (session_id s) i) (sessions (state_of r)))
    = option_map title
        (find (fun s => str_eqb (session_id s) i) (sessions render)).
Proof.
  intros r Hreq. subst r.
  assert (Hs : sessions (state_of (run (saveRename Thrown) render))
               = sessions render).
  { revert Hreq. unfold run, saveRename.
    destruct (negb (truthy (trim (editTitle render)))
              || title_unchanged render).
    - destruct render. intros [].
    - intros _. destruct render. reflexivity. }
  split; [exact Hs | intros i; now rewrite Hs].
Qed.

(** C7. Confirming the deletion of the active session removes every
    session bearing its identifier from the list, clears the active
    session and the messages, and sends the request, however the remote
    deletion then completes. *)
Theorem delete_active_session_clears_chat
  (deleted : completion) (render : state) (sid : ident) :
  deletingSessionId render = Some sid ->
  sid <> [] ->
  currentSessionId render = Some sid ->
  let r := run (executeDelete deleted) render in
  sessions (state_of r) =
    filter (fun s => negb (str_eqb (session_id s) sid)) (sessions render) /\
  (forall s, In s (sessions (state_of r)) -> session_id s <> sid) /\
  currentSessionId (state_of r) = None /\
  messages (state_of r) = [] /\
  In (DeleteSession (Some sid)) (effects_of r).
Proof.
  intros Hdel Hne Hcur r. subst r.
  assert (Hs :
    sessions (state_of (run (executeDelete deleted) render)) =
      filter (fun s => negb (str_eqb (session_id s) sid)) (sessions render) /\
    currentSessionId (state_of (run (executeDelete deleted) render)) = None /\
    messages (state_of (run (executeDelete deleted) render)) = [] /\
    In (DeleteSession (Some sid))
       (effects_of (run (executeDelete deleted) render))).
  { unfold run, executeDelete. rewrite Hdel, Hcur.
    cbn [truthy_id id_eqb]. rewrite str_eqb_refl.
    destruct sid as [|x sid]; [contradiction|]. cbn [truthy negb when].
    destruct render, deleted; cbn; repeat split; auto. }
  destruct Hs as [Hs [Hc [Hm He]]]. repeat split; try assumption.
  rewrite Hs. intros s Hin. apply filter_In in Hin as [_ Hin].
  apply negb_true_iff in Hin. now apply str_eqb_neq in Hin.
Qed.

End RenameDeleteClaims.

(** ** The claims at concrete pages *)

Section ConcreteRuns.

#[local] Abbreviation send env render :=
  (run (handleSendMessage ToString_sample env) render).

(** By the updates of the handler alone, the stream of [A], [B], [C] ends
    with the assistant content [ABC], delivered in one read or in four. *)
Example abc_stream_content :
  map content (messages (state_of (send (answering abc_one_read) fresh_page)))
    = [lit "hello"; lit "ABC"] /\
  map content (messages (state_of (send (answering abc_four_reads) fresh_page)))
    = [lit "hello"; lit "ABC"].
Proof. vm_compute. split; reflexivity. Qed.

(** A send whose query gets no response, from a page with an active
    session: the failure is reported in the placeholder and in a message
    of its own, and the refresh is asked for. *)
Example unanswered_send :
  result_of (send unanswered active_page) = Settled Thrown /\
  map content (messages (state_of (send unanswered active_page)))
    = [lit "show floats"; lit "hello"; LF :: lit "[Connection Error]";
       lit "Error: Unable to process request."] /\
  effects_of (send unanswered active_page)
    = [PostQuery (lit "hello") (Some (lit "6f1c2d3e")); FetchSessions].
Proof. vm_compute. repeat split; reflexivity. Qed.

Lemma refresh_iff_session_was_active_witness :
  result_of (send (answering abc_one_read) fresh_page) = Settled Returned /\
  let r := send (answering abc_one_read) fresh_page in
  (In FetchSessions (effects_of r) <->
   truthy_id (currentSessionId fresh_page) = true) /\
  (forall ns,
      truthy_id (currentSessionId fresh_page) = false ->
      inserted (answering abc_one_read) = Inserted ns ->
      currentSessionId (state_of r) = Some (session_id ns) /\
      ~ In FetchSessions (effects_of r)).
Proof.
  assert (H1 : result_of (send (answering abc_one_read) fresh_page)
               = Settled Returned) by (vm_compute; reflexivity).
  split; [exact H1|].
  exact (refresh_iff_session_was_active
           ToString_sample (answering abc_one_read) fresh_page Returned H1).
Defined.

Lemma rename_without_change_is_noop_witness :
  (exists s, editing_session (renaming_page "Floats near Goa") = Some s /\
             title s = Some (editTitle (renaming_page "Floats near Goa"))) /\
  let r := run (saveRename Returned) (renaming_page "Floats near Goa") in
  sessions (state_of r) = sessions (renaming_page "Floats near Goa") /\
  effects_of r = [] /\
  state_of r =
    State (sessions (renaming_page "Floats near Goa"))
          (currentSessionId (renaming_page "Floats near Goa"))
          (messages (renaming_page "Floats near Goa"))
          (inputValue (renaming_page "Floats near Goa"))
          (isLoading (renaming_page "Floats near Goa"))
          (user (renaming_page "Floats near Goa"))
          (activeMenuId (renaming_page "Floats near Goa")) None
          (editTitle (renaming_page "Floats near Goa"))
          (deletingSessionId (renaming_page "Floats near Goa")).
Proof.
  assert (H : exists s,
             editing_session (renaming_page "Floats near Goa") = Some s /\
             title s = Some (editTitle (renaming_page "Floats near Goa")))
    by (exists old_session; split; reflexivity).
  split; [exact H|].
  exact (rename_without_change_is_noop
           Returned (renaming_page "Floats near Goa") (or_intror H)).
Defined.

(** A blank title is turned away in the same way. *)
Example rename_to_blank :
  run (saveRename Returned) (renaming_page "   ")
  = (tt,
     State [old_session] (Some (lit "6f1c2d3e")) [old_message] [] false
           (Some (lit "u-1")) None None (lit "   ") None,
     []).
Proof. reflexivity. Qed.

Lemma failed_rename_restores_snapshot_witness :
  let r := run (saveRename Thrown) (renaming_page "Argo floats") in
  In (PatchSession (Some (lit "6f1c2d3e")) (lit "Argo floats"))
     (effects_of r) /\
  sessions (state_of r) = sessions (renaming_page "Argo floats") /\
  forall i,
    option_map title
      (find (fun s => str_eqb (session_id s) i) (sessions (state_of r)))
    = option_map title
        (find (fun s => str_eqb (session_id s) i)
              (sessions (renaming_page "Argo floats"))).
Proof.
  assert (H : In (PatchSession (Some (lit "6f1c2d3e")) (lit "Argo floats"))
                 (effects_of (run (saveRename Thrown)
                                  (renaming_page "Argo floats"))))
    by (left; reflexivity).
  split; [exact H|].
  exact (failed_rename_restores_snapshot
           (renaming_page "Argo floats") (Some (lit "6f1c2d3e"))
           (lit "Argo floats") H).
Defined.

(** The same rename, confirmed by the backend, keeps the new title. *)
Example confirmed_rename :
  map title (sessions (state_of (run (saveRename Returned)
                                     (renaming_page "Argo floats"))))
  = [Some (lit "Argo floats")].
Proof. reflexivity. Qed.

Lemma delete_active_session_clears_chat_witness :
  (deletingSessionId deleting_page = Some (lit "6f1c2d3e") /\
   lit "6f1c2d3e" <> [] /\
   currentSessionId deleting_page = Some (lit "6f1c2d3e")) /\
  let r := run (executeDelete Thrown) deleting_page in
  sessions (state_of r) =
    filter (fun s => negb (str_eqb (session_id s) (lit "6f1c2d3e")))
           (sessions deleting_page) /\
  (forall s, In s (sessions (state_of r)) -> session_id s <> lit "6f1c2d3e") /\
  currentSessionId (state_of r) = None /\
  messages (state_of r) = [] /\
  In (DeleteSession (Some (lit "6f1c2d3e"))) (effects_of r).
Proof.
  assert (H1 : deletingSessionId deleting_page = Some (lit "6f1c2d3e"))
    by reflexivity.
  assert (H2 : lit "6f1c2d3e" <> []) by discriminate.
  assert (H3 : currentSessionId deleting_page = Some (lit "6f1c2d3e"))
    by reflexivity.
  split; [auto|].
  exact (delete_active_session_clears_chat
           Thrown deleting_page (lit "6f1c2d3e") H1 H2 H3).
Defined.

(** The deletion at the sample page, with the remote deletion failing. *)
Example delete_then_failure :
  run (executeDelete Thrown) deleting_page
  = (tt,
     State [new_session] None [] [] false (Some (lit "u-1")) None None []
           None,
     [FocusInput; DeleteSession (Some (lit "6f1c2d3e")); FetchSessions;
      Alert (lit "Failed to delete chat.")]).
Proof. reflexivity. Qed.

End ConcreteRuns.

(** * Further properties of the decoders and of the page *)

(** ** More facts about the string primitives *)

Section MoreStringFacts.

Lemma includes_spec (s p : jsstring) :
  includes s p = true <-> exists x y, s = x ++ p ++ y.
Proof.
  induction s as [|c s IH]; simpl.
  - rewrite orb_false_r, startsWith_prefix. split.
    + intros [r Hr]. now exists [], r.
    + intros [x [y H]]. destruct x; [now exists y | discriminate].
  - rewrite orb_true_iff, startsWith_prefix, IH. split.
    + intros [[r Hr] | [x [y H]]].
      * now exists [], r.
      * exists (c :: x), y. now rewrite H.
    + intros [x [y H]]. destruct x as [|d x].
      * left. now exists y.
      * right. injection H as _ H. now exists x, y.
Qed.

(** A text holds the pattern when one of its parts does. *)
Lemma includes_app (x s y p : jsstring) :
  includes s p = true -> includes (x ++ s ++ y) p = true.
Proof.
  rewrite !includes_spec. intros [a [b ->]].
  exists (x ++ a), (b ++ y). now rewrite <- !app_assoc.
Qed.

Lemma cut_none_includes (sep s : jsstring) :
  cut sep s = None <-> includes s sep = false.
Proof.
  induction s as [|c s IH]; simpl.
  - destruct (startsWith [] sep); split; intros H; try discriminate;
      reflexivity.
  - destruct (startsWith (c :: s) sep); simpl.
    + split; discriminate.
    + rewrite <- IH. destruct (cut sep s) as [[b a]|]; split;
        intros H; try discriminate; reflexivity.
Qed.

Lemma trimStart_blank (s : jsstring) :
  forallb is_white_space s = true -> trimStart s = [].
Proof.
  induction s as [|c s IH]; simpl; [reflexivity|].
  intros H. apply andb_true_iff in H as [Hc Hs]. now rewrite Hc, IH.
Qed.

(** A text of white space only trims to the empty string. *)
Lemma trim_blank (s : jsstring) :
  forallb is_white_space s = true -> trim s = [].
Proof.
  intros H. unfold trim, trimEnd. now rewrite (trimStart_blank s H).
Qed.

(** The parts [split] returns hold the pattern only if the text does. *)
Lemma split_includes (sep s part p : jsstring) :
  sep <> [] ->
  In part (split s sep) -> includes part p = true -> includes s p = true.
Proof.
  intros Hsep. revert part.
  induction s as [s E | s b a E IH] using (split_induction sep Hsep);
    intros part; rewrite (split_unfold sep Hsep), E.
  - intros [<-|[]]. auto.
  - apply cut_spec in E. subst s. intros [<-|Hin] Hp.
    + apply (includes_app [] _ (sep ++ a)). exact Hp.
    + rewrite app_assoc. rewrite <- (app_nil_r a).
      apply includes_app. now apply (IH part).
Qed.

Lemma removelast_In (A : Type) (l : list A) (x : A) :
  In x (removelast l) -> In x l.
Proof.
  induction l as [|a l IH]; [intros []|].
  destruct l as [|b l]; [intros []|].
  intros [<-|H]; [now left | right; now apply IH].
Qed.

(** A framed block followed by a blank line is cut off whole. *)
Lemma framed_cut (b rest : jsstring) :
  framed b = true ->
  cut [LF; LF] (b ++ [LF; LF] ++ rest) = Some (b, rest).
Proof.
  induction b as [|c b IH]; intros Hf; [reflexivity|].
  unfold framed in Hf. apply andb_true_iff in Hf as [Hinc Hend].
  apply negb_true_iff in Hinc. cbn [includes] in Hinc.
  apply orb_false_iff in Hinc as [Hstart Hrest].
  assert (Hb : framed b = true).
  { unfold framed. rewrite Hrest. cbn [negb andb].
    destruct b as [|d b]; [reflexivity|].
    cbn [rev] in Hend |- *. destruct (rev b ++ [d]) as [|e r] eqn:Er.
    - destruct (rev b); discriminate.
    - exact Hend. }
  change ((c :: b) ++ [LF; LF] ++ rest) with (c :: (b ++ [LF; LF] ++ rest)).
  cbn [cut]. rewrite (IH Hb).
  assert (Hs : startsWith (c :: b ++ [LF; LF] ++ rest) [LF; LF] = false).
  { destruct b as [|d b].
    - cbn [rev app] in Hend. apply negb_true_iff in Hend.
      cbn [app startsWith]. now rewrite N.eqb_sym, Hend.
    - cbn [app startsWith] in Hstart |- *. exact Hstart. }
  now rewrite Hs.
Qed.

(** The complete blocks of a framed text are the blocks it was made of,
    whatever unfinished block follows. *)
Lemma complete_blocks_wire (blocks : list jsstring) (rest : jsstring) :
  forallb framed blocks = true ->
  includes rest [LF; LF] = false ->
  complete_blocks (wire blocks ++ rest) = blocks.
Proof.
  intros Hf Hr. unfold complete_blocks.
  induction blocks as [|b blocks IH].
  - cbn [wire flat_map app].
    rewrite (split_no_sep _ blank_line_not_empty); [reflexivity|].
    now apply cut_none_includes.
  - cbn [forallb] in Hf. apply andb_true_iff in Hf as [Hb Hf].
    replace (wire (b :: blocks) ++ rest)
      with (b ++ [LF; LF] ++ (wire blocks ++ rest))
      by (unfold wire; cbn [flat_map]; now rewrite <- !app_assoc).
    rewrite (split_unfold _ blank_line_not_empty).
    rewrite (framed_cut b _ Hb).
    pose proof (split_not_nil _ blank_line_not_empty (wire blocks ++ rest))
      as Hne.
    specialize (IH Hf).
    destruct (split (wire blocks ++ rest) [LF; LF]) as [|q qs] eqn:Es;
      [contradiction|].
    cbn [removelast]. now f_equal.
Qed.

End MoreStringFacts.

(** ** More about the stream decoder *)

Section MoreDecoderFacts.

(** The buffer the chat-mode loop holds after the given reads. *)
Lemma read_loop_app (chunks more : list jsstring) :
  forall buffer,
    exists buffer',
      read_loop buffer (chunks ++ more) =
      read_loop buffer chunks ++ read_loop buffer' more.
Proof.
  induction chunks as [|value rest IH]; intros buffer.
  - now exists buffer.
  - cbn [app read_loop pop].
    destruct (IH (last (split (buffer ++ value) [LF; LF]) []))
      as [buffer' Hb].
    exists buffer'. now rewrite Hb, app_assoc.
Qed.

Lemma query_loop_app (chunks more : list jsstring) (data : option json) :
  forall buffer,
    query_loop buffer chunks = Some data ->
    query_loop buffer (chunks ++ more) = Some data.
Proof.
  induction chunks as [|value rest IH]; intros buffer; [discriminate|].
  cbn [app query_loop pop].
  destruct (scan_events _); [trivial | apply IH].
Qed.

Lemma process_part_length (part : jsstring) :
  List.length (process_part part) <= 1.
Proof.
  unfold process_part. destruct (negb (truthy (trim part))); [simpl; lia|].
  destruct (read_lines _) as [t d]. unfold dispatch.
  repeat match goal with
         | |- context [if ?b then _ else _] => destruct b
         | |- context [match JSON_parse ?x with _ => _ end] =>
             destruct (JSON_parse x)
         end; simpl; lia.
Qed.

Lemma flat_map_length_le (A B : Type) (f : A -> list B) (l : list A) :
  (forall a, List.length (f a) <= 1) ->
  List.length (flat_map f l) <= List.length l.
Proof.
  intros H. induction l as [|a l IH]; simpl; [lia|].
  rewrite length_app. specialize (H a). lia.
Qed.

Lemma read_lines_snoc (lines : list jsstring) (line : jsstring) :
  read_lines (lines ++ [line]) = read_line (read_lines lines) line.
Proof. unfold read_lines. now rewrite fold_left_app. Qed.

Lemma read_lines_skip (lines : list jsstring) :
  forall acc,
    fold_left read_line
      (filter (fun l => is_event_line l || is_data_line l) lines) acc =
    fold_left read_line lines acc.
Proof.
  unfold is_event_line, is_data_line.
  induction lines as [|l lines IH]; intros acc; [reflexivity|].
  cbn [filter fold_left].
  destruct (startsWith l (lit "event: ")) eqn:Ee;
    destruct (startsWith l (lit "data: ")) eqn:Ed; cbn [orb fold_left];
    rewrite IH; try reflexivity.
  destruct acc as [t d]. unfold read_line. now rewrite Ee, Ed.
Qed.

Lemma blank_blocks_silent (parts : list jsstring) :
  (forall part, In part parts -> forallb is_white_space part = true) ->
  flat_map process_part parts = [].
Proof.
  induction parts as [|p parts IH]; intros H; [reflexivity|].
  cbn [flat_map]. rewrite IH by (intros q Hq; apply H; now right).
  unfold process_part. rewrite (trim_blank p); [reflexivity|].
  apply H. now left.
Qed.

Lemma scan_events_none (events : list jsstring) :
  (forall e, In e events -> includes e (lit "event: metadata") = false) ->
  scan_events events = None.
Proof.
  induction events as [|e events IH]; intros H; [reflexivity|].
  cbn [scan_events]. unfold process_block.
  rewrite (H e) by now left. apply IH. intros e' He'. apply H. now right.
Qed.

End MoreDecoderFacts.

(** ** Further properties of the stream decoder *)

Section DecoderExtras.

(** X1. Framing round trip: a stream text made of blocks, each followed by
    a blank line, with an unfinished block behind, is decoded block by
    block whatever the reads: the callbacks are those of the blocks in
    order, and the unfinished block is dropped. *)
Theorem framed_stream_decodes_each_block
  (blocks reads : list jsstring) (rest : jsstring) :
  forallb framed blocks = true ->
  includes rest [LF; LF] = false ->
  List.concat reads = wire blocks ++ rest ->
  streamChatResponse (Body reads Done) =
  (flat_map process_part blocks, Returned).
Proof.
  intros Hf Hr Hc. cbn [streamChatResponse].
  rewrite read_loop_blocks by reflexivity. cbn [app].
  now rewrite Hc, complete_blocks_wire.
Qed.

Lemma framed_stream_decodes_each_block_witness :
  (forallb framed mixed_blocks = true /\
   includes (lit "event: chunk") [LF; LF] = false /\
   List.concat mixed_reads = wire mixed_blocks ++ lit "event: chunk") /\
  streamChatResponse (Body mixed_reads Done) =
  (flat_map process_part mixed_blocks, Returned).
Proof.
  assert (H1 : forallb framed mixed_blocks = true) by reflexivity.
  assert (H2 : includes (lit "event: chunk") [LF; LF] = false) by reflexivity.
  assert (H3 : List.concat mixed_reads
               = wire mixed_blocks ++ lit "event: chunk")
    by (vm_compute; reflexivity).
  split; [auto|].
  exact (framed_stream_decodes_each_block
           mixed_blocks mixed_reads (lit "event: chunk") H1 H2 H3).
Defined.

(** X2. The one-shot query reads a framed stream block by block too: it
    resolves with the data of the first block that ends the query; with
    none, it resolves with the empty array when the stream ends and rejects
    when a read fails. *)
Theorem framed_stream_query
  (blocks reads : list jsstring) (rest : jsstring) (ending : stream_end) :
  forallb framed blocks = true ->
  includes rest [LF; LF] = false ->
  List.concat reads = wire blocks ++ rest ->
  fetchSSEData (Body reads ending) =
  match scan_events blocks, ending with
  | Some data, _ => Resolved data
  | None, Done => Resolved (Some (JArray []))
  | None, ReadFailed => Rejected
  end.
Proof.
  intros Hf Hr Hc. cbn [fetchSSEData].
  rewrite query_loop_blocks by reflexivity. cbn [app].
  rewrite Hc, complete_blocks_wire by assumption.
  destruct (scan_events blocks), ending; reflexivity.
Qed.

Lemma framed_stream_query_witness :
  (forallb framed mixed_blocks = true /\
   includes (lit "event: chunk") [LF; LF] = false /\
   List.concat mixed_reads = wire mixed_blocks ++ lit "event: chunk") /\
  fetchSSEData (Body mixed_reads ReadFailed) =
  match scan_events mixed_blocks, ReadFailed with
  | Some data, _ => Resolved data
  | None, Done => Resolved (Some (JArray []))
  | None, ReadFailed => Rejected
  end.
Proof.
  assert (H1 : forallb framed mixed_blocks = true) by reflexivity.
  assert (H2 : includes (lit "event: chunk") [LF; LF] = false) by reflexivity.
  assert (H3 : List.concat mixed_reads
               = wire mixed_blocks ++ lit "event: chunk")
    by (vm_compute; reflexivity).
  split; [auto|].
  exact (framed_stream_query
           mixed_blocks mixed_reads (lit "event: chunk") ReadFailed H1 H2 H3).
Defined.

(** X3. A stream of white space only, such as keep-alive line feeds,
    never invokes the callback. *)
Theorem blank_stream_is_silent (reads : list jsstring) :
  forallb is_white_space (List.concat reads) = true ->
  streamChatResponse (Body reads Done) = ([], Returned).
Proof.
  intros H. cbn [streamChatResponse].
  rewrite read_loop_blocks by reflexivity. cbn [app].
  rewrite blank_blocks_silent; [reflexivity|].
  intros part Hin. apply forallb_forall. intros c Hc.
  rewrite forallb_forall in H. apply H.
  apply removelast_In in Hin.
  exact (split_incl _ blank_line_not_empty _ _ _ Hin Hc).
Qed.

Lemma blank_stream_is_silent_witness :
  forallb is_white_space (List.concat [[LF]; [LF; LF; 32; 13]; [LF; LF]])%N
    = true /\
  streamChatResponse (Body [[LF]; [LF; LF; 32; 13]; [LF; LF]]%N Done)
    = ([], Returned).
Proof.
  split; [reflexivity|].
  exact (blank_stream_is_silent [[LF]; [LF; LF; 32; 13]; [LF; LF]]%N eq_refl).
Defined.

(** X4. What has been delivered stays delivered: the callbacks made for
    some reads are a prefix of the callbacks made once more reads have
    arrived, however the stream then ends. *)
Theorem delivered_callbacks_are_kept
  (chunks more : list jsstring) (ending : stream_end) :
  exists later,
    fst (streamChatResponse (Body (chunks ++ more) ending)) =
    fst (streamChatResponse (Body chunks Done)) ++ later.
Proof.
  destruct (read_loop_app chunks more []) as [buffer' Hb].
  destruct ending; cbn [streamChatResponse fst]; rewrite Hb.
  - now exists (read_loop buffer' more).
  - exists (read_loop buffer' more ++ [connection_error]).
    now rewrite app_assoc.
Qed.

(** X5. A block makes at most one callback, so a stream makes no more
    callbacks than it has complete blocks. *)
Theorem callbacks_bounded_by_blocks (reads : list jsstring) :
  List.length (fst (streamChatResponse (Body reads Done))) <=
  List.length (complete_blocks (List.concat reads)).
Proof.
  cbn [streamChatResponse fst]. rewrite read_loop_blocks by reflexivity.
  apply flat_map_length_le, process_part_length.
Qed.

(** X6. Where every callback comes from: a block in which an event type
    was read, and which is a [chunk] with data (the payload is the parsed
    data, or the data itself when it is not JSON), a [visualization] with
    data that parses, or an [error]. A keep-alive, a block without event
    type, a block of another type such as [metadata], and a visualization
    that does not parse make no callback; no callback of a block lacks its
    type argument. *)
Theorem callback_origin (part : jsstring) (c : callback) :
  In c (process_part part) ->
  truthy (trim part) = true /\
  exists t data,
    read_lines (split part [LF]) = (Some t, data) /\
    ((t = lit "chunk" /\ data <> [] /\ type c = TextChunk /\
      payload c = match JSON_parse data with
                  | Some text => text
                  | None => JString data
                  end) \/
     (t = lit "visualization" /\ data <> [] /\ type c = VisualizationChunk /\
      JSON_parse data = Some (payload c)) \/
     (t = lit "error" /\ type c = TextChunk /\
      payload c = JString (error_marker data))).
Proof.
  unfold process_part.
  destruct (truthy (trim part)); cbn [negb]; [|intros []].
  destruct (read_lines (split part [LF])) as [[t|] data];
    [|intros []].
  intros Hin. split; [reflexivity|]. exists t, data. split; [reflexivity|].
  revert Hin. unfold dispatch, type_is.
  destruct (str_eqb t (lit "chunk")) eqn:Ec.
  { apply str_eqb_eq in Ec. destruct data as [|x data]; cbn [truthy andb].
    - subst t. cbn. intros [].
    - intros Hin. left.
      destruct (JSON_parse (x :: data)); destruct Hin as [<-|[]];
        repeat split; auto; discriminate. }
  cbn [andb].
  destruct (str_eqb t (lit "visualization")) eqn:Ev.
  { apply str_eqb_eq in Ev. destruct data as [|x data]; cbn [truthy andb].
    - subst t. cbn. intros [].
    - intros Hin. right. left.
      destruct (JSON_parse (x :: data)) as [viz|]; [|destruct Hin].
      destruct Hin as [<-|[]]. repeat split; auto; discriminate. }
  cbn [andb].
  destruct (str_eqb t (lit "error")) eqn:Er; [|intros []].
  apply str_eqb_eq in Er. intros [<-|[]]. right. right. auto.
Qed.

Lemma callback_origin_witness :
  In (OnChunk (JString (lit "Hi")) TextChunk)
     (process_part (block ["event: chunk"; "data: Hi"]%string)) /\
  truthy (trim (block ["event: chunk"; "data: Hi"]%string)) = true.
Proof.
  assert (H : In (OnChunk (JString (lit "Hi")) TextChunk)
                 (process_part (block ["event: chunk"; "data: Hi"]%string)))
    by (left; reflexivity).
  split; [exact H|].
  exact (proj1 (callback_origin _ _ H)).
Defined.

(** X7. What is read from the lines of a block: lines that begin with
    neither [event: ] nor [data: ], such as comments, [id:] fields or a
    [data:] without its space, change nothing; and when the event type is
    named more than once the last [event: ] line decides, there being no
    type with no such line. *)
Theorem lines_read_from_a_block (lines : list jsstring) :
  read_lines (filter (fun l => is_event_line l || is_data_line l) lines) =
  read_lines lines /\
  fst (read_lines lines) =
  match rev (filter is_event_line lines) with
  | line :: _ => Some (trim (slice line 7))
  | [] => None
  end.
Proof.
  split; [unfold read_lines; apply read_lines_skip|].
  induction lines as [|l lines IH] using rev_ind; [reflexivity|].
  rewrite read_lines_snoc, filter_app, rev_app_distr. cbn [filter].
  destruct (read_lines lines) as [t d]. cbn [fst] in IH.
  unfold read_line, is_event_line in *.
  destruct (startsWith l (lit "event: ")); cbn [rev app fst].
  - reflexivity.
  - destruct (startsWith l (lit "data: ")); exact IH.
Qed.

(** X8. The one-shot query does not depend on how the stream text was cut
    into reads. *)
Theorem query_boundary_independence
  (chunks resplit : list jsstring) (ending : stream_end) :
  List.concat resplit = List.concat chunks ->
  fetchSSEData (Body resplit ending) = fetchSSEData (Body chunks ending).
Proof.
  intros H. cbn [fetchSSEData].
  rewrite !query_loop_blocks by reflexivity. cbn [app]. now rewrite H.
Qed.

Lemma query_boundary_independence_witness :
  List.concat abc_four_reads = List.concat abc_one_read /\
  fetchSSEData (Body abc_four_reads Done) =
  fetchSSEData (Body abc_one_read Done).
Proof.
  split; [reflexivity|].
  exact (query_boundary_independence abc_one_read abc_four_reads Done
                                     eq_refl).
Defined.

(** X9. A stream in whose text [event: metadata] never occurs gives the
    empty array when it ends, and a rejection when a read fails: never a
    value taken from the stream. *)
Theorem query_without_metadata (reads : list jsstring) :
  includes (List.concat reads) (lit "event: metadata") = false ->
  fetchSSEData (Body reads Done) = Resolved (Some (JArray [])) /\
  fetchSSEData (Body reads ReadFailed) = Rejected.
Proof.
  intros H. cbn [fetchSSEData].
  rewrite query_loop_blocks by reflexivity. cbn [app].
  rewrite scan_events_none; [split; reflexivity|].
  intros e He. apply removelast_In in He.
  destruct (includes e (lit "event: metadata")) eqn:E; [|reflexivity].
  rewrite (split_includes _ _ _ _ blank_line_not_empty He E) in H.
  discriminate.
Qed.

Lemma query_without_metadata_witness :
  includes (List.concat abc_four_reads) (lit "event: metadata") = false /\
  fetchSSEData (Body abc_four_reads Done) = Resolved (Some (JArray [])) /\
  fetchSSEData (Body abc_four_reads ReadFailed) = Rejected.
Proof.
  split; [reflexivity|].
  exact (query_without_metadata abc_four_reads eq_refl).
Defined.

(** X10. Once a block has ended the query, nothing that follows matters:
    a query that resolves although the read after its chunks fails resolves
    with the same value whatever further reads arrive and however the
    stream ends. *)
Theorem query_stops_at_first_result
  (chunks more : list jsstring) (ending : stream_end) (data : option json) :
  fetchSSEData (Body chunks ReadFailed) = Resolved data ->
  fetchSSEData (Body (chunks ++ more) ending) = Resolved data.
Proof.
  cbn [fetchSSEData]. intros H.
  destruct (query_loop [] chunks) as [d|] eqn:E; [|discriminate].
  injection H as ->.
  now rewrite (query_loop_app chunks more data [] E).
Qed.

Lemma query_stops_at_first_result_witness :
  fetchSSEData (Body metadata_reads ReadFailed)
    = Resolved (Some (JArray [JNumber (lit "7")])) /\
  fetchSSEData (Body (metadata_reads ++ abc_four_reads) ReadFailed)
    = Resolved (Some (JArray [JNumber (lit "7")])).
Proof.
  assert (H : fetchSSEData (Body metadata_reads ReadFailed)
              = Resolved (Some (JArray [JNumber (lit "7")])))
    by (vm_compute; reflexivity).
  split; [exact H|].
  exact (query_stops_at_first_result
           metadata_reads abc_four_reads ReadFailed _ H).
Defined.

End DecoderExtras.

(** ** More about the chat page *)

Section MorePageFacts.

Variable ToString : json -> jsstring.

Lemma apply_chunk_keeps (aid : ident) (c : callback) (m : message) :
  id (apply_chunk ToString aid c m) = id m /\
  msg_role (apply_chunk ToString aid c m) = msg_role m /\
  created_at (apply_chunk ToString aid c m) = created_at m.
Proof.
  unfold apply_chunk.
  destruct (negb (str_eqb (id m) aid)); [auto|].
  destruct (type c); auto.
Qed.

Lemma apply_chunks_keeps (aid : ident) (cbs : list callback) :
  forall m,
    id (apply_chunks ToString aid cbs m) = id m /\
    msg_role (apply_chunks ToString aid cbs m) = msg_role m /\
    created_at (apply_chunks ToString aid cbs m) = created_at m.
Proof.
  unfold apply_chunks.
  induction cbs as [|c cbs IH]; intros m; cbn [fold_left]; [auto|].
  destruct (IH (apply_chunk ToString aid c m)) as [Hi [Hr Hd]].
  destruct (apply_chunk_keeps aid c m) as [Hi' [Hr' Hd']].
  rewrite Hi, Hr, Hd. auto.
Qed.

(** The metadata of the message the callbacks are aimed at: that of the
    last visualization, if there was one. *)
Lemma apply_chunks_meta (cbs : list callback) :
  forall m,
    meta (apply_chunks ToString (id m) cbs m) =
    match last_visualization cbs with
    | Some viz => Some (JObject [(lit "visualization", viz)])
    | None => meta m
    end.
Proof.
  unfold apply_chunks.
  induction cbs as [|c cbs IH]; intros m; cbn [fold_left last_visualization];
    [reflexivity|].
  destruct (apply_chunk_keeps (id m) c m) as [Hi _].
  specialize (IH (apply_chunk ToString (id m) c m)). rewrite Hi in IH.
  rewrite IH. destruct (last_visualization cbs); [reflexivity|].
  unfold apply_chunk. rewrite str_eqb_refl. cbn [negb].
  destruct (type c); reflexivity.
Qed.

(** With no message of the identifier in the list, the loop over the
    callbacks changes nothing. *)
Lemma forEach_onChunk_absent (aid : ident) (cbs : list callback) (st : state) :
  (forall m, In m (messages st) -> id m <> aid) ->
  forEach cbs (onChunk ToString aid) st = (tt, st, []).
Proof.
  intros Hnone. rewrite forEach_onChunk. destruct st. cbn in *.
  do 2 f_equal. f_equal.
  rewrite <- (map_id messages0) at 2. apply map_ext_in.
  intros m Hm. apply apply_chunks_other. now apply Hnone.
Qed.

Lemma find_unique (sessions : list session) (s : session) :
  NoDup (map session_id sessions) -> In s sessions ->
  find (fun x => id_eqb (Some (session_id x)) (Some (session_id s))) sessions
  = Some s.
Proof.
  induction sessions as [|x sessions IH]; intros Hnd Hin; [contradiction|].
  cbn [map] in Hnd. inversion Hnd as [|? ? Hx Hnd']; subst.
  cbn [find id_eqb]. destruct Hin as [->|Hin].
  - now rewrite str_eqb_refl.
  - destruct (str_eqb (session_id x) (session_id s)) eqn:E.
    + apply str_eqb_eq in E. exfalso. apply Hx. rewrite E.
      now apply in_map.
    + now apply IH.
Qed.

End MorePageFacts.

(** ** The send on the page *)

Section PageSendFacts.

Variable ToString : json -> jsstring.

Lemma id_eqb_refl (a : option ident) : id_eqb a a = true.
Proof. destruct a as [s|]; [apply str_eqb_refl | reflexivity]. Qed.

(** A session that had to be created bears another identifier than the
    falsy one of the render. *)
Lemma reload_started_new (cur : option ident) (sid : ident) :
  truthy_id cur = false -> truthy sid = true ->
  id_eqb cur (Some sid) = false.
Proof.
  intros Hc Hs. destruct cur as [[|x s]|]; try discriminate; [|reflexivity].
  destruct sid; [discriminate | reflexivity].
Qed.

Lemma apply_chunks_app (aid : ident) (a b : list callback) (m : message) :
  apply_chunks ToString aid (a ++ b) m =
  apply_chunks ToString aid b (apply_chunks ToString aid a m).
Proof. unfold apply_chunks. apply fold_left_app. Qed.

(** The callbacks delivered in two runs do what they do in one. *)
Lemma map_firstn_skipn (aid : ident) (k : nat) (cbs : list callback)
  (ms : list message) :
  map (apply_chunks ToString aid (skipn k cbs))
      (map (apply_chunks ToString aid (firstn k cbs)) ms) =
  map (apply_chunks ToString aid cbs) ms.
Proof.
  rewrite map_map. apply map_ext. intros m.
  now rewrite <- apply_chunks_app, firstn_skipn.
Qed.

#[local] Arguments lit : simpl never.
#[local] Arguments Number_toString : simpl never.

(** A send that does not create its session starts no reload: on the
    page it is the handler alone. *)
Lemma page_send_body_same
  (env : send_env) (rl : reload) (render : state) (q : jsstring) :
  truthy_id (currentSessionId render) = true \/ inserted env = InsertError ->
  forall st,
    page_send_body ToString env rl render q st =
    send_body ToString env render q st.
Proof.
  intros H st. unfold page_send_body, send_body.
  destruct (truthy_id (currentSessionId render)) eqn:Hc; cbn [negb].
  - unfold effect_run, reload_started. 
    destruct (streamChatResponse (chat_response env)) as [chunks c].
    destruct (reload_at rl) as [k|];
      unfold bind; cbn; rewrite ?id_eqb_refl; cbn;
      rewrite !forEach_onChunk; cbn;
      rewrite ?map_firstn_skipn; reflexivity.
  - destruct H as [H | H]; [discriminate|]. now rewrite H.
Qed.

Lemma send_on_page_without_reload
  (env : send_env) (rl : reload) (render : state) :
  truthy_id (currentSessionId render) = true \/ inserted env = InsertError ->
  run (send_on_page ToString env rl) render =
  run (handleSendMessage ToString env) render.
Proof.
  intros H. unfold run, send_on_page, handleSendMessage.
  destruct (negb (truthy (trim (inputValue render))) || isLoading render);
    [reflexivity|].
  assert (Hr : send_reloads env render = false).
  { unfold send_reloads. destruct H as [-> | ->]; [reflexivity|].
    apply andb_false_r. }
  rewrite Hr. cbn [andb when].
  unfold bind. cbn.
  rewrite (page_send_body_same env rl render _ H).
  destruct (send_body ToString env render (inputValue render) _)
    as [[c st] e].
  destruct c; cbn;
    destruct (truthy_id (currentSessionId render)); cbn;
    rewrite ?app_nil_r; reflexivity.
Qed.

(** A send that created its session, on the page, the store having
    answered the reload with rows. *)
Lemma first_send_reloaded
  (env : send_env) (rl : reload) (render : state) (ns : session)
  (data : option (list message)) (cbs : list callback) (c : completion) :
  negb (truthy (trim (inputValue render))) || isLoading render = false ->
  truthy_id (currentSessionId render) = false ->
  inserted env = Inserted ns ->
  truthy (session_id ns) = true ->
  streamChatResponse (chat_response env) = (cbs, c) ->
  reload_answer rl = Rows data ->
  run (send_on_page ToString env rl) render =
  (Settled c,
   State (ns :: sessions render) (Some (session_id ns))
         (reloaded_messages ToString env (reload_at rl) data cbs c)
         [] false (user render) (activeMenuId render)
         (editingSessionId render) (editTitle render)
         (deletingSessionId render),
   [InsertSession (user render) (lit "New Chat");
    PostQuery (inputValue render) (Some (session_id ns))]).
Proof.
  intros Hg Hc Hi Hid Es Ha.
  pose proof (reload_started_new _ _ Hc Hid) as Hnew.
  unfold run, send_on_page, page_send_body, send_reloads, reload_started,
    effect_run, reloaded_messages, assistant_id, failure_message.
  rewrite Hg, Hc, Hi, Es, Ha.
  destruct render as [ss cur ms input loading usr menu edit etitle del].
  cbn [currentSessionId] in Hnew.
  destruct (reload_at rl) as [k|]; unfold bind; cbn;
    rewrite ?Hnew, ?Hid; cbn; rewrite !forEach_onChunk; cbn;
    rewrite ?Hnew, ?Hid; cbn; rewrite ?forEach_onChunk; cbn.
  - destruct c; cbn; rewrite ?app_nil_r; reflexivity.
  - destruct c; cbn; reflexivity.
Qed.

End PageSendFacts.

(** ** The first send on the page *)

Section PageSendClaims.

(** C2. A first send on the page: no session is active, the input is
    [hello], the store creates the session, the stream of [A], [B], [C]
    ends normally, and the store answers the reload of the messages of the
    new session with no rows, at whatever moment. The new session is the
    head of the session list, but the message list ends empty: the two
    messages the handler appended are gone. By the updates of the handler
    alone the list would hold the user message and the assistant message,
    in that order. *)
Theorem first_send_messages_replaced_by_reload (p : reload_point) :
  let env := answering abc_one_read in
  let r := run (send_on_page ToString_sample env
                             (Reload (Rows (Some [])) p)) fresh_page in
  let alone := run (handleSendMessage ToString_sample env) fresh_page in
  result_of r = Settled Returned /\
  sessions (state_of r) = new_session :: sessions fresh_page /\
  messages (state_of r) = [] /\
  map msg_role (messages (state_of alone)) = [user_role; assistant_role] /\
  map content (messages (state_of alone)) = [lit "hello"; lit "ABC"].
Proof.
  intros env r alone. subst env r alone.
  rewrite (first_send_reloaded ToString_sample (answering abc_one_read)
             (Reload (Rows (Some [])) p) fresh_page new_session (Some [])
             (read_loop [] abc_one_read) Returned
             eq_refl eq_refl eq_refl eq_refl eq_refl eq_refl).
  unfold result_of, state_of. cbn [fst snd sessions messages reload_at].
  split; [reflexivity|]. split; [reflexivity|].
  split; [destruct p; reflexivity|].
  vm_compute. split; reflexivity.
Qed.

(** C3. The same first send, the stream delivered in four reads and the
    store answering the reload with the question as the backend saved it:
    the message list ends as that row alone, at whatever moment the answer
    came, so no message holds the streamed text. The same stream in a
    session that was already active ends with the assistant message last
    and [ABC] as its content. *)
Theorem first_send_loses_streamed_text (p : reload_point) :
  let env := answering abc_four_reads in
  let rl := Reload (Rows (Some [stored_question])) p in
  let first := run (send_on_page ToString_sample env rl) fresh_page in
  let later := run (send_on_page ToString_sample env rl) active_page in
  result_of first = Settled Returned /\
  messages (state_of first) = [stored_question] /\
  result_of later = Settled Returned /\
  map msg_role (messages (state_of later))
    = [user_role; user_role; assistant_role] /\
  map content (messages (state_of later))
    = [lit "show floats"; lit "hello"; lit "ABC"].
Proof.
  intros env rl first later. subst env rl first later.
  rewrite (first_send_reloaded ToString_sample (answering abc_four_reads)
             (Reload (Rows (Some [stored_question])) p) fresh_page
             new_session (Some [stored_question])
             (read_loop [] abc_four_reads) Returned
             eq_refl eq_refl eq_refl eq_refl eq_refl eq_refl).
  rewrite (send_on_page_without_reload ToString_sample
             (answering abc_four_reads)
             (Reload (Rows (Some [stored_question])) p) active_page
             (or_introl eq_refl)).
  unfold result_of, state_of. cbn [fst snd sessions messages reload_at].
  split; [reflexivity|].
  split.
  { unfold reloaded_messages. destruct p as [k|]; [|reflexivity].
    cbn [or_empty map app]. f_equal.
    apply apply_chunks_other. vm_compute. discriminate. }
  vm_compute. repeat split; reflexivity.
Qed.

(** Both temporary identifiers come from the clock: when it steps back one
    millisecond between the two readings they coincide, and the text of the
    chunks is appended to the user message as well as to the placeholder. *)
Example clock_step_back_joins_messages :
  map content
    (messages
       (state_of
          (run (handleSendMessage ToString_sample
                  (SendEnv 1700000000005 (lit "2025-01-02T00:00:00.005Z")
                           (Inserted new_session)
                           1700000000004 (lit "2025-01-02T00:00:00.004Z")
                           (Body abc_one_read Done) 1700000000009))
               active_page)))
  = [lit "show floats"; lit "helloABC"; lit "ABC"].
Proof. vm_compute. reflexivity. Qed.

End PageSendClaims.

(** ** Further properties of the send *)

Section SendExtras.

Variable ToString : json -> jsstring.

(** X11. A send with an input of white space only, or while a send is in
    flight, does nothing: the state is the one of the render and nothing
    is asked of the outside world; the send button is disabled in that
    render. *)
Theorem blank_or_busy_send_is_ignored (env : send_env) (render : state) :
  forallb is_white_space (inputValue render) = true \/
  isLoading render = true ->
  run (handleSendMessage ToString env) render = (Ignored, render, []) /\
  sendDisabled render = true.
Proof.
  intros H.
  assert (Hg : negb (truthy (trim (inputValue render))) || isLoading render
               = true).
  { destruct H as [H | H].
    - now rewrite (trim_blank _ H).
    - rewrite H. apply orb_true_r. }
  split; [now apply send_ignored | exact Hg].
Qed.

(** The three ways a send that passed the guard can go. *)
Lemma send_cases (env : send_env) (render : state) (c : completion) :
  result_of (run (handleSendMessage ToString env) render) = Settled c ->
  let r := run (handleSendMessage ToString env) render in
  (truthy_id (currentSessionId render) = true /\
   r = (Settled c,
        State (sessions render) (currentSessionId render)
              (settled_messages ToString env render
                 (fst (streamChatResponse (chat_response env))) c)
              [] false (user render) (activeMenuId render)
              (editingSessionId render) (editTitle render)
              (deletingSessionId render),
        [PostQuery (inputValue render) (currentSessionId render);
         FetchSessions])) \/
  (truthy_id (currentSessionId render) = false /\
   exists ns,
     inserted env = Inserted ns /\
     r = (Settled c,
          State (ns :: sessions render) (Some (session_id ns))
                (settled_messages ToString env render
                   (fst (streamChatResponse (chat_response env))) c)
                [] false (user render) (activeMenuId render)
                (editingSessionId render) (editTitle render)
                (deletingSessionId render),
          [InsertSession (user render) (lit "New Chat");
           PostQuery (inputValue render) (Some (session_id ns))])) \/
  (truthy_id (currentSessionId render) = false /\
   inserted env = InsertError /\ c = Thrown /\
   r = (Settled Thrown,
        State (sessions render) (currentSessionId render)
              (messages render ++
               [user_message env render; failure_message env])
              [] false (user render) (activeMenuId render)
              (editingSessionId render) (editTitle render)
              (deletingSessionId render),
        [InsertSession (user render) (lit "New Chat")])).
Proof.
  intros Hout r. subst r.
  pose proof (settled_passed_guard _ _ _ _ Hout) as Hg.
  destruct (streamChatResponse (chat_response env)) as [cbs c'] eqn:Es.
  cbn [fst].
  destruct (truthy_id (currentSessionId render)) eqn:Hc.
  - left. split; [reflexivity|].
    rewrite (send_in_active_session ToString env render _ _ Hg Hc Es)
      in Hout |- *.
    unfold result_of in Hout. cbn [fst] in Hout. now injection Hout as ->.
  - right. destruct (inserted env) as [ns|] eqn:Hi.
    + left. split; [reflexivity|]. exists ns. split; [reflexivity|].
      rewrite (send_in_new_session ToString env render ns _ _ Hg Hc Hi Es)
        in Hout |- *.
      unfold result_of in Hout. cbn [fst] in Hout. now injection Hout as ->.
    + right. split; [reflexivity|]. split; [reflexivity|].
      rewrite (send_insert_failed ToString env render Hg Hc Hi) in Hout |- *.
      unfold result_of in Hout. cbn [fst] in Hout.
      injection Hout as <-. split; reflexivity.
Qed.

(** X12. A send that passed the guard ends, whether it succeeded or
    failed, with the input emptied and the loading flag down, and has
    touched neither the user, the open menu, the rename in progress nor
    the pending deletion. *)
Theorem settled_send_resets_compose_area
  (env : send_env) (render : state) (c : completion) :
  result_of (run (handleSendMessage ToString env) render) = Settled c ->
  let st' := state_of (run (handleSendMessage ToString env) render) in
  inputValue st' = [] /\ isLoading st' = false /\
  user st' = user render /\ activeMenuId st' = activeMenuId render /\
  editingSessionId st' = editingSessionId render /\
  editTitle st' = editTitle render /\
  deletingSessionId st' = deletingSessionId render.
Proof.
  intros Hout st'. subst st'.
  destruct (send_cases env render c Hout)
    as [[_ ->] | [[_ [ns [_ ->]]] | [_ [_ [_ ->]]]]];
    cbn; repeat split.
Qed.

(** X13. What a send that passed the guard asks of the outside world: in
    an active session, one query with the input as typed and the active
    identifier, then the refresh; otherwise the insertion of a session
    titled [New Chat] for the user and, only if it succeeded, one query
    with the identifier the store gave. No query is posted when the
    session could not be created. *)
Theorem requests_of_a_send
  (env : send_env) (render : state) (c : completion) :
  result_of (run (handleSendMessage ToString env) render) = Settled c ->
  effects_of (run (handleSendMessage ToString env) render) =
  if truthy_id (currentSessionId render) then
    [PostQuery (inputValue render) (currentSessionId render); FetchSessions]
  else
    InsertSession (user render) (lit "New Chat") ::
    match inserted env with
    | Inserted ns => [PostQuery (inputValue render) (Some (session_id ns))]
    | InsertError => []
    end.
Proof.
  intros Hout.
  destruct (send_cases env render c Hout)
    as [[Hc ->] | [[Hc [ns [Hi ->]]] | [Hc [Hi [_ ->]]]]];
    rewrite Hc, ?Hi; reflexivity.
Qed.

(** X14. On the page, a send that does not create its session (a session
    was active, or the session could not be created) and that fails does
    not take the user message back: the old messages (in number) are
    followed by the user message as typed, then by the placeholder if the
    stream was reached, and last by one message that reports the failure.
    The clock is assumed not to run backwards between the two readings the
    identifiers are derived from. *)
Theorem failed_send_keeps_user_message
  (env : send_env) (rl : reload) (render : state) :
  result_of (run (send_on_page ToString env rl) render) = Settled Thrown ->
  (now_user env <= now_assistant env)%N ->
  truthy_id (currentSessionId render) = true \/ inserted env = InsertError ->
  exists before between,
    messages (state_of (run (send_on_page ToString env rl) render)) =
      before ++ user_message env render :: between ++ [failure_message env] /\
    List.length before = List.length (messages render) /\
    List.length between <= 1.
Proof.
  intros Hout Hclock Hsame.
  rewrite (send_on_page_without_reload ToString env rl render Hsame)
    in Hout |- *.
  assert (Hm : forall cbs,
    settled_messages ToString env render cbs Thrown =
    map (apply_chunks ToString (assistant_id env) cbs) (messages render) ++
    user_message env render ::
    [apply_chunks ToString (assistant_id env) cbs (placeholder env)] ++
    [failure_message env]).
  { intros cbs. unfold settled_messages. rewrite !map_app. cbn [map].
    rewrite user_message_kept by assumption. now rewrite <- !app_assoc. }
  destruct (send_cases env render Thrown Hout)
    as [[_ ->] | [[Hc [ns [Hi _]]] | [_ [_ [_ ->]]]]];
    unfold state_of; cbn [fst snd messages].
  - rewrite Hm. eexists _, _. split; [reflexivity|].
    split; [apply length_map | cbn; lia].
  - destruct Hsame as [Hs | Hs]; congruence.
  - exists (messages render), []. split; [reflexivity|].
    split; [reflexivity | cbn; lia].
Qed.

(** X15. On the page, in a send in a session that was already active and
    that succeeds, the metadata of the assistant placeholder is the
    visualization delivered last, if any was: a later visualization
    replaces an earlier one, and text never touches it. *)
Theorem last_visualization_wins
  (env : send_env) (rl : reload) (render : state) :
  truthy_id (currentSessionId render) = true ->
  result_of (run (send_on_page ToString env rl) render) = Settled Returned ->
  exists before a,
    messages (state_of (run (send_on_page ToString env rl) render))
      = before ++ [a] /\
    id a = assistant_id env /\
    meta a =
      match last_visualization (fst (streamChatResponse (chat_response env)))
      with
      | Some viz => Some (JObject [(lit "visualization", viz)])
      | None => None
      end.
Proof.
  intros Hactive Hout.
  rewrite (send_on_page_without_reload ToString env rl render
             (or_introl Hactive)) in Hout |- *.
  pose proof (apply_chunks_meta ToString
                (fst (streamChatResponse (chat_response env)))
                (placeholder env)) as Hmeta.
  pose proof (apply_chunks_keeps ToString (assistant_id env)
                (fst (streamChatResponse (chat_response env)))
                (placeholder env)) as [Hid _].
  cbn [id placeholder meta] in Hmeta, Hid.
  destruct (send_cases env render Returned Hout)
    as [[_ ->] | [[Hc _] | [_ [_ [Habs _]]]]];
    [| congruence | discriminate];
    unfold state_of; cbn [fst snd messages];
    rewrite settled_messages_last; eexists _, _;
    (split; [reflexivity | split; [exact Hid | exact Hmeta]]).
Qed.

(** X16. The callbacks of a stream never add, remove or reorder messages
    and never change an identifier, a role or a date; they ask nothing of
    the outside world and touch nothing but the message list; when no
    message bears the identifier they are aimed at, the state is left as
    it was. *)
Theorem callbacks_keep_message_list_shape
  (aid : ident) (cbs : list callback) (st : state) :
  let r := forEach cbs (onChunk ToString aid) st in
  map id (messages (state_of r)) = map id (messages st) /\
  map msg_role (messages (state_of r)) = map msg_role (messages st) /\
  map created_at (messages (state_of r)) = map created_at (messages st) /\
  effects_of r = [] /\
  sessions (state_of r) = sessions st /\
  currentSessionId (state_of r) = currentSessionId st /\
  ((forall m, In m (messages st) -> id m <> aid) -> state_of r = st).
Proof.
  intros r. subst r.
  assert (Hlast :
    (forall m, In m (messages st) -> id m <> aid) ->
    state_of (forEach cbs (onChunk ToString aid) st) = st)
    by (intros Hnone; now rewrite forEach_onChunk_absent).
  rewrite forEach_onChunk in Hlast |- *.
  unfold state_of, effects_of in *.
  cbn [fst snd messages sessions currentSessionId] in *.
  rewrite !map_map.
  repeat split;
    try (apply map_ext; intros m;
         now destruct (apply_chunks_keeps ToString aid cbs m) as [? [? ?]]).
  exact Hlast.
Qed.

(** X17. When the messages have been reloaded from the store while a
    stream is in flight, and no row bears the temporary identifier of the
    placeholder, the callbacks that follow change nothing: the list stays
    the rows of the store. *)
Theorem callbacks_after_reload_are_lost
  (aid : ident) (cbs : list callback) (rows : list message) (st : state) :
  (forall m, In m rows -> id m <> aid) ->
  let reloaded := state_of (fetchMessages (Rows (Some rows)) st) in
  messages (state_of (forEach cbs (onChunk ToString aid) reloaded)) = rows.
Proof.
  intros Hrows reloaded. subst reloaded.
  rewrite forEach_onChunk_absent; destruct st; cbn; auto.
Qed.

End SendExtras.

(** ** Further properties of the keys of the input *)

Section PageExtras.

Variable ToString : json -> jsstring.

(** X18. A key press in the input sends exactly when the key is Enter,
    Shift is not held and the send button is enabled; in every other case
    the state is left as it was and nothing is asked of the outside
    world. *)
Theorem key_press_sends_iff
  (env : send_env) (key : jsstring) (shiftKey : bool) (render : state) :
  (result_of (run (handleKeyDown ToString env key shiftKey) render) = Ignored
   <-> key <> lit "Enter" \/ shiftKey = true \/ sendDisabled render = true) /\
  (result_of (run (handleKeyDown ToString env key shiftKey) render) = Ignored
   -> run (handleKeyDown ToString env key shiftKey) render
      = (Ignored, render, [])).
Proof.
  assert (Hcases :
    run (handleKeyDown ToString env key shiftKey) render = (Ignored, render, [])
    /\ (key <> lit "Enter" \/ shiftKey = true \/ sendDisabled render = true)
    \/ (exists c,
          result_of (run (handleKeyDown ToString env key shiftKey) render)
          = Settled c) /\
       key = lit "Enter" /\ shiftKey = false /\ sendDisabled render = false).
  { unfold run, handleKeyDown.
    destruct (str_eqb key (lit "Enter")) eqn:Ek.
    2:{ left. split; [reflexivity|]. left. now apply str_eqb_neq. }
    destruct shiftKey; cbn [negb andb].
    { left. split; [reflexivity|]. right. now left. }
    apply str_eqb_eq in Ek.
    destruct (sendDisabled render) eqn:Hg; unfold sendDisabled in Hg.
    { left. split; [exact (send_ignored ToString env render Hg)|].
      right. now right. }
    right. split; [|auto].
    destruct (streamChatResponse (chat_response env)) as [cbs c] eqn:Es.
    destruct (truthy_id (currentSessionId render)) eqn:Hc.
    - exists c.
      change (handleSendMessage ToString env render render)
        with (run (handleSendMessage ToString env) render).
      now rewrite (send_in_active_session ToString env render _ _ Hg Hc Es).
    - destruct (inserted env) as [ns|] eqn:Hi.
      + exists c.
        change (handleSendMessage ToString env render render)
          with (run (handleSendMessage ToString env) render).
        now rewrite
          (send_in_new_session ToString env render ns _ _ Hg Hc Hi Es).
      + exists Thrown.
        change (handleSendMessage ToString env render render)
          with (run (handleSendMessage ToString env) render).
        now rewrite (send_insert_failed ToString env render Hg Hc Hi). }
  destruct Hcases as [[Hrun Hwhy] | [[c Hc] [Hk [Hs Hg]]]].
  - rewrite Hrun. split; [split; auto | auto].
  - rewrite Hc. split; [split|]; try discriminate.
    intros [H | [H | H]]; [contradiction | congruence | congruence].
Qed.

End PageExtras.

(** ** Further properties of rename and delete *)

Section RenameDeleteExtras.

(** X19. A rename that goes through and is confirmed changes titles
    only: the sessions keep their identifiers, dates, number and order;
    each session bearing the identifier being edited ends with the new
    title, every other one is as it was; one request is sent and the edit
    is closed. *)
Theorem confirmed_rename_changes_titles_only (render : state) :
  sendable_title render = true ->
  let r := run (saveRename Returned) render in
  map session_id (sessions (state_of r)) = map session_id (sessions render) /\
  map session_created_at (sessions (state_of r))
    = map session_created_at (sessions render) /\
  Forall2 (fun s s' =>
             if id_eqb (Some (session_id s)) (editingSessionId render)
             then title s' = Some (editTitle render) else s' = s)
          (sessions render) (sessions (state_of r)) /\
  effects_of r = [PatchSession (editingSessionId render) (editTitle render)] /\
  editingSessionId (state_of r) = None.
Proof.
  intros Hg r. subst r. unfold sendable_title in Hg.
  apply negb_true_iff in Hg.
  unfold run, saveRename. rewrite Hg.
  destruct render as [ss cur ms input loading usr menu edit etitle del].
  unfold state_of, effects_of. cbn.
  rewrite !map_map. repeat split.
  - apply map_ext. intros s.
    destruct edit as [y|]; [destruct (str_eqb (session_id s) y)|];
      reflexivity.
  - apply map_ext. intros s.
    destruct edit as [y|]; [destruct (str_eqb (session_id s) y)|];
      reflexivity.
  - clear Hg. induction ss as [|s ss IH]; cbn [map]; [constructor|].
    constructor; [|exact IH].
    destruct edit as [y|]; [destruct (str_eqb (session_id s) y)|];
      reflexivity.
Qed.

(** X20. Opening the rename of a listed session and saving at once, with
    the title left as it was, changes no session and sends no request,
    whatever the title of the session, [null] included. The identifiers of
    the listed sessions are assumed distinct. *)
Theorem rename_opened_and_saved_is_noop
  (renamed : completion) (s : session) (render : state) :
  NoDup (map session_id (sessions render)) ->
  In s (sessions render) ->
  let r := after (startRenaming s) (saveRename renamed) render in
  sessions (state_of r) = sessions render /\
  effects_of r = [] /\
  editingSessionId (state_of r) = None.
Proof.
  intros Hnd Hin r. subst r.
  pose proof (find_unique _ s Hnd Hin) as Hfind.
  destruct render as [ss cur ms input loading usr menu edit etitle del].
  cbn [sessions] in *.
  unfold after, run, startRenaming, bind, setEditingSessionId, setEditTitle,
    setActiveMenuId, update.
  cbn [sessions currentSessionId messages inputValue isLoading user
       activeMenuId editingSessionId editTitle deletingSessionId app].
  unfold saveRename, title_unchanged, editing_session.
  cbn [sessions editingSessionId editTitle]. rewrite Hfind.
  unfold title_or_empty. destruct (title s) as [t|].
  - rewrite str_eqb_refl, orb_true_r. repeat split.
  - cbn. repeat split.
Qed.

(** X21. The rename is kept only if the backend answers [ok] with a body
    that is JSON: an [ok] answer whose body does not parse counts as a
    failure, and the list is put back as it was although the request was
    sent. *)
Theorem rename_reverted_when_reply_is_not_json
  (chunks : list jsstring) (render : state) :
  sendable_title render = true ->
  JSON_parse (List.concat chunks) = None ->
  let r := run (saveRename (settled (renameSession (Body chunks Done)))) render
  in
  sessions (state_of r) = sessions render /\
  effects_of r = [PatchSession (editingSessionId render) (editTitle render)].
Proof.
  intros Hg Hp r. subst r. unfold sendable_title in Hg.
  apply negb_true_iff in Hg.
  unfold renameSession, json_reply. rewrite Hp. cbn [settled].
  unfold run, saveRename. rewrite Hg.
  destruct render. split; reflexivity.
Qed.

(** X22. Confirming the deletion of a session that is not the active one
    removes it and nothing else: a session is listed afterwards exactly
    when it was listed and bears another identifier, the order is kept,
    and the active session, its messages and the input are untouched. *)
Theorem delete_other_session_keeps_chat
  (deleted : completion) (render : state) (sid : ident) :
  deletingSessionId render = Some sid ->
  sid <> [] ->
  currentSessionId render <> Some sid ->
  let r := run (executeDelete deleted) render in
  sessions (state_of r) =
    filter (fun s => negb (str_eqb (session_id s) sid)) (sessions render) /\
  (forall s, In s (sessions (state_of r)) <->
             In s (sessions render) /\ session_id s <> sid) /\
  currentSessionId (state_of r) = currentSessionId render /\
  messages (state_of r) = messages render /\
  inputValue (state_of r) = inputValue render /\
  deletingSessionId (state_of r) = None /\
  ~ In FocusInput (effects_of r).
Proof.
  intros Hdel Hne Hcur r. subst r.
  assert (Hneq : id_eqb (currentSessionId render) (Some sid) = false).
  { destruct (currentSessionId render) as [c|]; [|reflexivity].
    cbn [id_eqb]. apply str_eqb_neq. congruence. }
  assert (Hs :
    sessions (state_of (run (executeDelete deleted) render)) =
      filter (fun s => negb (str_eqb (session_id s) sid)) (sessions render) /\
    currentSessionId (state_of (run (executeDelete deleted) render))
      = currentSessionId render /\
    messages (state_of (run (executeDelete deleted) render))
      = messages render /\
    inputValue (state_of (run (executeDelete deleted) render))
      = inputValue render /\
    deletingSessionId (state_of (run (executeDelete deleted) render)) = None /\
    ~ In FocusInput (effects_of (run (executeDelete deleted) render))).
  { unfold run, executeDelete. rewrite Hdel, Hneq.
    destruct sid as [|x sid]; [contradiction|].
    cbn [truthy_id truthy negb when].
    destruct render, deleted; cbn; repeat split; auto;
      intros H; repeat destruct H as [H|H]; try discriminate; exact H. }
  destruct Hs as [Hs [Hc [Hm [Hi [Hd Hf]]]]].
  split; [exact Hs|]. split; [|auto].
  intros s. rewrite Hs, filter_In, negb_true_iff, str_eqb_neq. reflexivity.
Qed.

(** X23. Asking for the deletion of a session in its menu and then
    confirming removes every session of that identifier, closes the menu
    and the confirmation, and sends one delete request for it. *)
Theorem delete_asked_and_confirmed
  (deleted : completion) (render : state) (sid : ident) :
  sid <> [] ->
  let r := after (confirmDeleteClicked sid) (executeDelete deleted) render in
  sessions (state_of r) =
    filter (fun s => negb (str_eqb (session_id s) sid)) (sessions render) /\
  activeMenuId (state_of r) = None /\
  deletingSessionId (state_of r) = None /\
  filter (fun e => match e with DeleteSession _ => true | _ => false end)
         (effects_of r) = [DeleteSession (Some sid)].
Proof.
  intros Hne r. subst r.
  destruct sid as [|x sid]; [contradiction|].
  destruct render as [ss cur ms input loading usr menu edit etitle del].
  unfold after, run, confirmDeleteClicked, executeDelete, bind,
    setDeletingSessionId, setActiveMenuId, setSessions, update.
  cbn [sessions currentSessionId messages inputValue isLoading user
       activeMenuId editingSessionId editTitle deletingSessionId app
       truthy_id truthy negb].
  destruct cur as [c|]; [destruct (str_eqb c (x :: sid)) eqn:E|];
    destruct deleted; cbn; rewrite ?E; cbn; repeat split.
Qed.

(** X24. The deletion is reported as failed unless the backend answers
    [ok] with a body that is JSON: after an [ok] answer whose body does
    not parse, the session list is asked for again and the failure notice
    is shown, the session staying removed from the local list. *)
Theorem delete_reported_failed_when_reply_is_not_json
  (chunks : list jsstring) (render : state) (sid : ident) :
  deletingSessionId render = Some sid ->
  sid <> [] ->
  JSON_parse (List.concat chunks) = None ->
  let r :=
    run (executeDelete (settled (deleteSession (Body chunks Done)))) render in
  sessions (state_of r) =
    filter (fun s => negb (str_eqb (session_id s) sid)) (sessions render) /\
  exists first,
    effects_of r =
    first ++ [DeleteSession (Some sid); FetchSessions;
              Alert (lit "Failed to delete chat.")].
Proof.
  intros Hdel Hne Hp r. subst r.
  unfold deleteSession, json_reply. rewrite Hp. cbn [settled].
  destruct sid as [|x sid]; [contradiction|].
  destruct render as [ss cur ms input loading usr menu edit etitle del].
  cbn [deletingSessionId] in Hdel. subst del.
  unfold run, executeDelete.
  cbn [sessions currentSessionId deletingSessionId truthy_id truthy negb].
  destruct cur as [c|]; [destruct (str_eqb c (x :: sid)) eqn:E|];
    cbn; rewrite ?E; cbn.
  - split; [reflexivity | now exists [FocusInput]].
  - split; [reflexivity | now exists []].
  - split; [reflexivity | now exists []].
Qed.

(** X25. While a rename is open, a click on a session does not change
    the active session; the identifier being edited is assumed not
    empty. *)
Theorem click_during_rename_is_ignored
  (s : session) (sessionId : ident) (render : state) :
  session_id s <> [] ->
  let r := after (startRenaming s) (handleSessionClick sessionId) render in
  currentSessionId (state_of r) = currentSessionId render /\
  messages (state_of r) = messages render /\
  editingSessionId (state_of r) = Some (session_id s).
Proof.
  intros Hne r. subst r.
  destruct (session_id s) as [|x i] eqn:Ei; [contradiction|].
  destruct render as [ss cur ms input loading usr menu edit etitle del].
  unfold after, run, startRenaming, handleSessionClick, bind,
    setEditingSessionId, setEditTitle, setActiveMenuId, update.
  cbn [sessions currentSessionId messages inputValue isLoading user
       activeMenuId editingSessionId editTitle deletingSessionId app].
  rewrite Ei. cbn. repeat split.
Qed.

End RenameDeleteExtras.

(** ** Further properties of the rename keys, the menu and the session
    switch *)

Section MenuAndSwitchExtras.

(** X26. In the rename input a key other than Enter changes no session
    and sends nothing: Escape closes the edit and discards what was typed,
    and any other key leaves the state as it was. *)
Theorem escape_abandons_rename
  (renamed : completion) (key : jsstring) (render : state) :
  key <> lit "Enter" ->
  let r := run (handleEditKeyDown renamed key) render in
  sessions (state_of r) = sessions render /\
  effects_of r = [] /\
  (key = lit "Escape" ->
   editingSessionId (state_of r) = None /\ editTitle (state_of r) = []) /\
  (key <> lit "Escape" -> state_of r = render).
Proof.
  intros Hk r. subst r. apply str_eqb_neq in Hk.
  unfold run, handleEditKeyDown. rewrite Hk.
  destruct (str_eqb key (lit "Escape")) eqn:Ee.
  - apply str_eqb_eq in Ee. destruct render. cbn.
    split; [reflexivity|]. split; [reflexivity|].
    split; [intros _; split; reflexivity | intros H; contradiction].
  - apply str_eqb_neq in Ee. destruct render. cbn.
    split; [reflexivity|]. split; [reflexivity|].
    split; [intros H; contradiction | reflexivity].
Qed.

(** X27. At most one menu is open, and opening the menu of another
    session closes the first: after a toggle for [a] and one for [b], the
    menu of [b] is open when the two differ; when they are the same, the
    menu is open only if it was open before the two toggles. Nothing else
    of the state changes. *)
Theorem menu_toggles_compose (a b : ident) (render : state) :
  let r := after (handleMenuToggle a) (handleMenuToggle b) render in
  activeMenuId (state_of r) =
    (if str_eqb a b
     then if id_eqb (activeMenuId render) (Some a) then Some a else None
     else Some b) /\
  sessions (state_of r) = sessions render /\
  currentSessionId (state_of r) = currentSessionId render /\
  messages (state_of r) = messages render /\
  effects_of r = [].
Proof.
  intros r. subst r.
  destruct render as [ss cur ms input loading usr menu edit etitle del].
  unfold after, run, handleMenuToggle, setActiveMenuId, update,
    state_of, effects_of.
  cbn [fst snd sessions currentSessionId messages inputValue isLoading user
       activeMenuId editingSessionId editTitle deletingSessionId app].
  split; [|repeat split].
  destruct (str_eqb a b) eqn:Eab.
  - apply str_eqb_eq in Eab. subst b.
    destruct (id_eqb menu (Some a)); cbn [id_eqb];
      rewrite ?str_eqb_refl; reflexivity.
  - destruct (id_eqb menu (Some a)); cbn [id_eqb]; rewrite ?Eab; reflexivity.
Qed.


End MenuAndSwitchExtras.

(** ** Further properties of the float details *)

Section FloatDetailsExtras.

Variable positive : json -> bool.

(** X29. With no metadata in the stream there are no details: the
    result is [null] when the stream ends and a rejection when a read
    fails. *)
Theorem no_metadata_no_details (reads : list jsstring) :
  includes (List.concat reads) (lit "event: metadata") = false ->
  fetchFloatDetails positive (Body reads Done) = Fulfilled None /\
  fetchFloatDetails positive (Body reads ReadFailed) = Failed.
Proof.
  intros H. unfold fetchFloatDetails. cbn [fetchSSEData].
  rewrite query_loop_blocks by reflexivity. cbn [app].
  rewrite scan_events_none; [split; reflexivity|].
  intros e He. apply removelast_In in He.
  destruct (includes e (lit "event: metadata")) eqn:E; [|reflexivity].
  rewrite (split_includes _ _ _ _ blank_line_not_empty He E) in H.
  discriminate.
Qed.

(** X30. When the query gives an array, the details are those of its
    first row alone: [null] for an empty array; a rejection when the first
    row is [null]; and for a row that is an object, its members under the
    six keys read, the last binding of a key counting and a missing key
    giving [undefined]. *)
Theorem details_of_first_row
  (r : response) (rows : list json) :
  fetchSSEData r = Resolved (Some (JArray rows)) ->
  fetchFloatDetails positive r =
  match rows with
  | [] => Fulfilled None
  | JNull :: _ => Failed
  | JObject members :: _ =>
      Fulfilled (Some (FloatDetails
        (lookup (lit "platform_number") members)
        (lookup (lit "latitude") members)
        (lookup (lit "longitude") members)
        (lookup (lit "time") members)
        (lookup (lit "temp") members)
        (lookup (lit "psal") members)))
  | _ :: _ => Fulfilled (Some (FloatDetails None None None None None None))
  end.
Proof.
  intros H. unfold fetchFloatDetails. rewrite H.
  destruct rows as [|[| | | | |] rows]; reflexivity.
Qed.

End FloatDetailsExtras.

(** ** Concrete runs of the further properties *)

Section MoreConcreteRuns.

#[local] Abbreviation renaming := (renaming_page "Argo floats").

#[local] Abbreviation failing_send :=
  (run (handleSendMessage ToString_sample unanswered) active_page).

#[local] Abbreviation failing_page_send :=
  (run (send_on_page ToString_sample unanswered
                     (Reload (Rows (Some [])) (DuringStream 1)))
       active_page).

#[local] Abbreviation drawing_page_send :=
  (run (send_on_page ToString_sample (answering mixed_reads)
                     (Reload (Rows (Some [])) (DuringStream 1)))
       active_page).

Lemma blank_or_busy_send_is_ignored_witness :
  forallb is_white_space (inputValue renaming) = true /\
  run (handleSendMessage ToString_sample unanswered) renaming
    = (Ignored, renaming, []) /\
  sendDisabled renaming = true.
Proof.
  split; [reflexivity|].
  exact (blank_or_busy_send_is_ignored
           ToString_sample unanswered renaming (or_introl eq_refl)).
Defined.

Lemma settled_send_resets_compose_area_witness :
  result_of failing_send = Settled Thrown /\
  let st' := state_of failing_send in
  inputValue st' = [] /\ isLoading st' = false /\
  user st' = user active_page /\ activeMenuId st' = activeMenuId active_page /\
  editingSessionId st' = editingSessionId active_page /\
  editTitle st' = editTitle active_page /\
  deletingSessionId st' = deletingSessionId active_page.
Proof.
  assert (H : result_of failing_send = Settled Thrown)
    by (vm_compute; reflexivity).
  split; [exact H|].
  exact (settled_send_resets_compose_area
           ToString_sample unanswered active_page Thrown H).
Defined.

Lemma requests_of_a_send_witness :
  result_of (run (handleSendMessage ToString_sample no_store) fresh_page)
    = Settled Thrown /\
  effects_of (run (handleSendMessage ToString_sample no_store) fresh_page)
    = [InsertSession (Some (lit "u-1")) (lit "New Chat")].
Proof.
  assert (H : result_of (run (handleSendMessage ToString_sample no_store)
                             fresh_page) = Settled Thrown)
    by (vm_compute; reflexivity).
  split; [exact H|].
  exact (requests_of_a_send ToString_sample no_store fresh_page Thrown H).
Defined.

Lemma failed_send_keeps_user_message_witness :
  (result_of failing_page_send = Settled Thrown /\
   (now_user unanswered <= now_assistant unanswered)%N /\
   (truthy_id (currentSessionId active_page) = true \/
    inserted unanswered = InsertError)) /\
  exists before between,
    messages (state_of failing_page_send) =
      before ++ user_message unanswered active_page ::
      between ++ [failure_message unanswered] /\
    List.length before = List.length (messages active_page) /\
    List.length between <= 1.
Proof.
  assert (H : result_of failing_page_send = Settled Thrown)
    by (vm_compute; reflexivity).
  assert (Hc : (now_user unanswered <= now_assistant unanswered)%N)
    by (vm_compute; discriminate).
  assert (Hs : truthy_id (currentSessionId active_page) = true \/
               inserted unanswered = InsertError)
    by (left; reflexivity).
  split; [auto|].
  exact (failed_send_keeps_user_message
           ToString_sample unanswered (Reload (Rows (Some [])) (DuringStream 1))
           active_page H Hc Hs).
Defined.

Lemma last_visualization_wins_witness :
  (truthy_id (currentSessionId active_page) = true /\
   result_of drawing_page_send = Settled Returned) /\
  exists before a,
    messages (state_of drawing_page_send) = before ++ [a] /\
    id a = assistant_id (answering mixed_reads) /\
    meta a =
      match last_visualization
              (fst (streamChatResponse
                      (chat_response (answering mixed_reads))))
      with
      | Some viz => Some (JObject [(lit "visualization", viz)])
      | None => None
      end.
Proof.
  assert (Ha : truthy_id (currentSessionId active_page) = true)
    by reflexivity.
  assert (H : result_of drawing_page_send = Settled Returned)
    by (vm_compute; reflexivity).
  split; [auto|].
  exact (last_visualization_wins
           ToString_sample (answering mixed_reads)
           (Reload (Rows (Some [])) (DuringStream 1)) active_page Ha H).
Defined.

Lemma callbacks_after_reload_are_lost_witness :
  (forall m, In m [old_message] -> id m <> lit "1700000000005") /\
  let reloaded :=
    state_of (fetchMessages (Rows (Some [old_message])) active_page) in
  messages
    (state_of
       (forEach (fst (streamChatResponse (Body mixed_reads Done)))
                (onChunk ToString_sample (lit "1700000000005")) reloaded))
  = [old_message].
Proof.
  assert (H : forall m, In m [old_message] -> id m <> lit "1700000000005")
    by (intros m [<- | []]; vm_compute; discriminate).
  split; [exact H|].
  exact (callbacks_after_reload_are_lost
           ToString_sample (lit "1700000000005")
           (fst (streamChatResponse (Body mixed_reads Done)))
           [old_message] active_page H).
Defined.

Lemma confirmed_rename_changes_titles_only_witness :
  sendable_title renaming = true /\
  let r := run (saveRename Returned) renaming in
  map session_id (sessions (state_of r)) = map session_id (sessions renaming)
  /\
  map session_created_at (sessions (state_of r))
    = map session_created_at (sessions renaming) /\
  Forall2 (fun s s' =>
             if id_eqb (Some (session_id s)) (editingSessionId renaming)
             then title s' = Some (editTitle renaming) else s' = s)
          (sessions renaming) (sessions (state_of r)) /\
  effects_of r
    = [PatchSession (editingSessionId renaming) (editTitle renaming)] /\
  editingSessionId (state_of r) = None.
Proof.
  split; [reflexivity|].
  exact (confirmed_rename_changes_titles_only renaming eq_refl).
Defined.

Lemma rename_opened_and_saved_is_noop_witness :
  (NoDup (map session_id (sessions two_sessions_page)) /\
   In old_session (sessions two_sessions_page)) /\
  let r := after (startRenaming old_session) (saveRename Thrown)
                 two_sessions_page in
  sessions (state_of r) = sessions two_sessions_page /\
  effects_of r = [] /\
  editingSessionId (state_of r) = None.
Proof.
  assert (Hnd : NoDup (map session_id (sessions two_sessions_page))).
  { constructor; [|constructor; [intros []|constructor]].
    intros [H|[]]. vm_compute in H. discriminate H. }
  assert (Hin : In old_session (sessions two_sessions_page))
    by (right; left; reflexivity).
  split; [auto|].
  exact (rename_opened_and_saved_is_noop
           Thrown old_session two_sessions_page Hnd Hin).
Defined.

Lemma rename_reverted_when_reply_is_not_json_witness :
  (sendable_title renaming = true /\
   JSON_parse (List.concat [lit "<html>"]) = None) /\
  let r := run (saveRename
                  (settled (renameSession (Body [lit "<html>"] Done))))
               renaming in
  sessions (state_of r) = sessions renaming /\
  effects_of r
    = [PatchSession (editingSessionId renaming) (editTitle renaming)].
Proof.
  split; [split; reflexivity|].
  exact (rename_reverted_when_reply_is_not_json
           [lit "<html>"] renaming eq_refl eq_refl).
Defined.

Lemma delete_other_session_keeps_chat_witness :
  (deletingSessionId deleting_other_page = Some (lit "9a2e4b6c") /\
   lit "9a2e4b6c" <> [] /\
   currentSessionId deleting_other_page <> Some (lit "9a2e4b6c")) /\
  let r := run (executeDelete Returned) deleting_other_page in
  sessions (state_of r) =
    filter (fun s => negb (str_eqb (session_id s) (lit "9a2e4b6c")))
           (sessions deleting_other_page) /\
  (forall s, In s (sessions (state_of r)) <->
             In s (sessions deleting_other_page) /\
             session_id s <> lit "9a2e4b6c") /\
  currentSessionId (state_of r) = currentSessionId deleting_other_page /\
  messages (state_of r) = messages deleting_other_page /\
  inputValue (state_of r) = inputValue deleting_other_page /\
  deletingSessionId (state_of r) = None /\
  ~ In FocusInput (effects_of r).
Proof.
  assert (H1 : deletingSessionId deleting_other_page
               = Some (lit "9a2e4b6c")) by reflexivity.
  assert (H2 : lit "9a2e4b6c" <> []) by (vm_compute; discriminate).
  assert (H3 : currentSessionId deleting_other_page
               <> Some (lit "9a2e4b6c")) by (vm_compute; discriminate).
  split; [auto|].
  exact (delete_other_session_keeps_chat
           Returned deleting_other_page (lit "9a2e4b6c") H1 H2 H3).
Defined.

Lemma delete_asked_and_confirmed_witness :
  lit "6f1c2d3e" <> [] /\
  let r := after (confirmDeleteClicked (lit "6f1c2d3e"))
                 (executeDelete Returned) two_sessions_page in
  sessions (state_of r) =
    filter (fun s => negb (str_eqb (session_id s) (lit "6f1c2d3e")))
           (sessions two_sessions_page) /\
  activeMenuId (state_of r) = None /\
  deletingSessionId (state_of r) = None /\
  filter (fun e => match e with DeleteSession _ => true | _ => false end)
         (effects_of r) = [DeleteSession (Some (lit "6f1c2d3e"))].
Proof.
  assert (H : lit "6f1c2d3e" <> []) by (vm_compute; discriminate).
  split; [exact H|].
  exact (delete_asked_and_confirmed
           Returned two_sessions_page (lit "6f1c2d3e") H).
Defined.

Lemma delete_reported_failed_when_reply_is_not_json_witness :
  (deletingSessionId deleting_page = Some (lit "6f1c2d3e") /\
   lit "6f1c2d3e" <> [] /\
   JSON_parse (List.concat [lit "<html>"]) = None) /\
  let r :=
    run (executeDelete (settled (deleteSession (Body [lit "<html>"] Done))))
        deleting_page in
  sessions (state_of r) =
    filter (fun s => negb (str_eqb (session_id s) (lit "6f1c2d3e")))
           (sessions deleting_page) /\
  exists first,
    effects_of r =
    first ++ [DeleteSession (Some (lit "6f1c2d3e")); FetchSessions;
              Alert (lit "Failed to delete chat.")].
Proof.
  assert (H1 : deletingSessionId deleting_page = Some (lit "6f1c2d3e"))
    by reflexivity.
  assert (H2 : lit "6f1c2d3e" <> []) by (vm_compute; discriminate).
  assert (H3 : JSON_parse (List.concat [lit "<html>"]) = None)
    by reflexivity.
  split; [auto|].
  exact (delete_reported_failed_when_reply_is_not_json
           [lit "<html>"] deleting_page (lit "6f1c2d3e") H1 H2 H3).
Defined.

Lemma click_during_rename_is_ignored_witness :
  session_id old_session <> [] /\
  let r := after (startRenaming old_session)
                 (handleSessionClick (lit "9a2e4b6c")) fresh_page in
  currentSessionId (state_of r) = currentSessionId fresh_page /\
  messages (state_of r) = messages fresh_page /\
  editingSessionId (state_of r) = Some (session_id old_session).
Proof.
  assert (H : session_id old_session <> []) by (vm_compute; discriminate).
  split; [exact H|].
  exact (click_during_rename_is_ignored
           old_session (lit "9a2e4b6c") fresh_page H).
Defined.

Lemma escape_abandons_rename_witness :
  lit "Escape" <> lit "Enter" /\
  let r := run (handleEditKeyDown Returned (lit "Escape")) renaming in
  sessions (state_of r) = sessions renaming /\
  effects_of r = [] /\
  (lit "Escape" = lit "Escape" ->
   editingSessionId (state_of r) = None /\ editTitle (state_of r) = []) /\
  (lit "Escape" <> lit "Escape" -> state_of r = renaming).
Proof.
  assert (H : lit "Escape" <> lit "Enter") by (vm_compute; discriminate).
  split; [exact H|].
  exact (escape_abandons_rename Returned (lit "Escape") renaming H).
Defined.


Lemma no_metadata_no_details_witness :
  includes (List.concat abc_four_reads) (lit "event: metadata") = false /\
  fetchFloatDetails (fun _ => false) (Body abc_four_reads Done)
    = Fulfilled None /\
  fetchFloatDetails (fun _ => false) (Body abc_four_reads ReadFailed)
    = Failed.
Proof.
  split; [reflexivity|].
  exact (no_metadata_no_details (fun _ => false) abc_four_reads eq_refl).
Defined.

Lemma details_of_first_row_witness :
  fetchSSEData (Body details_reads Done) =
    Resolved (Some (JArray [JObject [(lit "platform_number", JNumber (lit "7"));
                                     (lit "psal", JNumber (lit "35"))]])) /\
  fetchFloatDetails (fun _ => false) (Body details_reads Done) =
    Fulfilled (Some (FloatDetails (Some (JNumber (lit "7"))) None None None
                                  None (Some (JNumber (lit "35"))))).
Proof.
  assert (H : fetchSSEData (Body details_reads Done) =
    Resolved (Some (JArray [JObject [(lit "platform_number", JNumber (lit "7"));
                                     (lit "psal", JNumber (lit "35"))]])))
    by (vm_compute; reflexivity).
  split; [exact H|].
  exact (details_of_first_row (fun _ => false) (Body details_reads Done) _ H).
Defined.

End MoreConcreteRuns.
